(** * Battery trading strategy: a shallow embedding of
      [battery_trading_strategy.py] and the properties of its
      opportunity selector, execution engine and day-level driver.

    Numbers.  The Python program computes with [int] and [float] values;
    here every quantity of energy or money is an exact rational ([Q]),
    compared with [Qle_bool]/[Qeq_bool] the way Python compares numbers
    (by value).  Counters that the program only increments by one are [Z].
    What is proved on rationals is either about the structure of the
    computation or exact on the values a run produces; where rounding
    decides a statement, the engine on binary64 numbers ([Binary64]) is
    evaluated instead.

    Timestamps.  A pandas [Timestamp] is modelled by its calendar fields;
    comparison is chronological, membership tests use value equality. *)

From Stdlib Require Import ZArith QArith Qminmax List Bool Lia Lqa.
From Stdlib Require Import Permutation Sorted.
From Stdlib Require Import PrimFloat.

Set Warnings "-inexact-float".
Import ListNotations.
Open Scope Q_scope.

(** ** Timestamps *)

Record Timestamp := mkTs { year : Z; month : Z; day : Z; hour : Z }.

Definition ts_compare (a b : Timestamp) : comparison :=
  match (year a ?= year b)%Z with
  | Eq => match (month a ?= month b)%Z with
          | Eq => match (day a ?= day b)%Z with
                  | Eq => (hour a ?= hour b)%Z
                  | c => c
                  end
          | c => c
          end
  | c => c
  end.

(** [a > b] on timestamps. *)
Definition ts_gtb (a b : Timestamp) : bool :=
  match ts_compare a b with Gt => true | _ => false end.

(** [a == b] on timestamps. *)
Definition ts_eqb (a b : Timestamp) : bool :=
  match ts_compare a b with Eq => true | _ => false end.

(** [t in l] for a Python list of timestamps. *)
Definition ts_mem (t : Timestamp) (l : list Timestamp) : bool :=
  existsb (ts_eqb t) l.

(** ** Numbers *)

(** [x > y]. *)
Definition Qgtb (x y : Q) : bool := negb (Qle_bool x y).

(** Python's [min(a, b)]: the first argument unless the second is
    strictly smaller. *)
Definition pymin (a b : Q) : Q := if Qgtb a b then b else a.

(** Python's [min(a, b, c)], a left-to-right scan keeping the first
    smallest value. *)
Definition pymin3 (a b c : Q) : Q := pymin (pymin a b) c.

(** ** Configuration and data *)

(** The parameters stored by [BatteryTrading.__init__]. *)
Record Config := mkConfig {
  capacity : Q;
  speed : Q;
  efficiency : Q;
  day_ahead_time : Z;
  profit_min : Q;
  tax_fixed_returnable : Q
}.

(** One row of the price frame: the [Date] index and the [Price] column. *)
Definition PricePoint : Type := (Timestamp * Q)%type.

(** A selected trade [(buy_time, sell_time, profit_kwh)]. *)
Definition Trade : Type := (Timestamp * Timestamp * Q)%type.

Definition trade_buy (t : Trade) : Timestamp := fst (fst t).
Definition trade_sell (t : Trade) : Timestamp := snd (fst t).
Definition trade_profit (t : Trade) : Q := snd t.

(** ** Opportunity selector: [find_best_trade] *)

(** The expression assigned to [profit_kwh] in [find_best_trade]. *)
Definition profit_kwh (cfg : Config) (buy_price sell_price : Q) : Q :=
  (sell_price + tax_fixed_returnable cfg) * efficiency cfg
  - (buy_price + tax_fixed_returnable cfg).

(** Body of the inner loop for one buy row and one sell row: the list of
    tuples appended to [best_trades] (zero or one). *)
Definition candidate (cfg : Config) (buy_row sell_row : PricePoint)
  : list Trade :=
  if ts_gtb (fst sell_row) (fst buy_row) then
    let p := profit_kwh cfg (snd buy_row) (snd sell_row) in
    if Qle_bool (profit_min cfg) p
    then [(fst buy_row, fst sell_row, p)]
    else []
  else [].

(** The two nested [iterrows] loops: [best_trades] before it is sorted. *)
Definition candidates (cfg : Config) (day_data : list PricePoint)
  : list Trade :=
  flat_map (fun buy_row =>
    flat_map (fun sell_row => candidate cfg buy_row sell_row) day_data)
    day_data.

(** [best_trades.sort(key=lambda x: x[2], reverse=True)].  Python's sort is
    stable, also with [reverse=True]: the result is the descending
    arrangement in which equal keys keep their original relative order.
    That arrangement is unique; it is computed here by insertion from the
    right, each element being placed in front of the first element whose
    key is not larger. *)
Fixpoint insert_desc (x : Trade) (l : list Trade) : list Trade :=
  match l with
  | [] => [x]
  | y :: l' =>
      if Qle_bool (trade_profit y) (trade_profit x)
      then x :: y :: l'
      else y :: insert_desc x l'
  end.

Definition sort_desc (l : list Trade) : list Trade :=
  fold_right insert_desc [] l.

(** The loop that removes used timestamps, with its two accumulators
    [grouped_best_trades] and [used_timestamps]. *)
Fixpoint group_loop (best_trades grouped : list Trade)
  (used : list Timestamp) : list Trade :=
  match best_trades with
  | [] => grouped
  | (buy_timestamp, sell_timestamp, profit) :: rest =>
      if negb (ts_mem buy_timestamp used) && negb (ts_mem sell_timestamp used)
      then group_loop rest
             (grouped ++ [(buy_timestamp, sell_timestamp, profit)])
             (used ++ [buy_timestamp; sell_timestamp])
      else group_loop rest grouped used
  end.

Definition find_best_trade (cfg : Config) (day_data : list PricePoint)
  : list Trade :=
  group_loop (sort_desc (candidates cfg day_data)) [] [].

(** ** Ledger rows *)

Inductive Action := buy | sell.

(** One element of [self.transactions]; the field names are the column
    names given in [save_results]. *)
Module Transaction.
Record t := mk {
  date : Timestamp;
  action : Action;
  amount_kwh : Q;
  amount_eur : Q;
  price : Q;
  balance : Q;
  cycles : Z;
  capacity_cycles : Q;
  profit : Q;
  month_profit : Q;
  total_profit : Q
}.
End Transaction.

(** ** Engine state *)

(** A tuple [(timestamp, amount_kwh, price)] of [buy_log]. *)
Definition Lot : Type := (Timestamp * Q * Q)%type.

Definition lot_time (l : Lot) : Timestamp := fst (fst l).
Definition lot_amount (l : Lot) : Q := snd (fst l).
Definition lot_price (l : Lot) : Q := snd l.

(** Python's [==] on two such tuples. *)
Definition lot_eqb (a b : Lot) : bool :=
  ts_eqb (lot_time a) (lot_time b)
  && Qeq_bool (lot_amount a) (lot_amount b)
  && Qeq_bool (lot_price a) (lot_price b).

(** [list.remove(x)]: drops the first element equal to [x].  (Python
    raises [ValueError] when there is none; the only call site passes an
    element of the list.) *)
Fixpoint list_remove (x : Lot) (l : list Lot) : list Lot :=
  match l with
  | [] => []
  | y :: l' => if lot_eqb y x then l' else y :: list_remove x l'
  end.

(** The mutable attributes of a [BatteryTrading] object, together with
    the [buy_log] list that [run] creates once and passes by reference to
    every call of [execute_trade], [buy_energy] and [sell_energy]. *)
Record State := mkState {
  balance : Q;
  cycles : Z;
  capacity_cycles : Q;
  total_profit : Q;
  monthly_profit : Q;
  transactions : list Transaction.t;
  month_current : Z;
  buy_log : list Lot
}.

(** The attribute values set at the end of [__init__], and the empty
    [buy_log] of [run]. *)
Definition init_state : State :=
  mkState 0 0%Z 0 0 0 [] 0%Z [].

(** ** A small error monad: [None] is a raised exception *)

Definition bind {A B : Type} (m : option A) (f : A -> option B) : option B :=
  match m with
  | Some a => f a
  | None => None
  end.

Notation "x <- m ;; k" := (bind m (fun x => k))
  (at level 61, m at next level, right associativity).

(** ** Execution engine *)

(** [self.data.loc[t, 'Price']] for a frame whose index holds [t] once:
    the price of that row; [KeyError] when no row has index [t]. *)
Fixpoint loc_price (data : list PricePoint) (t : Timestamp) : option Q :=
  match data with
  | [] => None
  | (t', p) :: rest => if ts_eqb t' t then Some p else loc_price rest t
  end.

(** [buy_energy].  The division [amount_kwh / self.capacity] raises
    [ZeroDivisionError] when the capacity is zero. *)
Definition buy_energy (cfg : Config) (self : State) (timestamp : Timestamp)
  (amount_kwh price : Q) : option State :=
  if Qeq_bool (capacity cfg) 0 then None
  else
    let balance' := balance self + amount_kwh in
    let cycles' := (cycles self + 1)%Z in
    let capacity_cycles' := capacity_cycles self + amount_kwh / capacity cfg in
    Some (mkState balance' cycles' capacity_cycles'
            (total_profit self) (monthly_profit self)
            (transactions self ++
               [Transaction.mk timestamp buy amount_kwh (amount_kwh * price)
                  price
                  balance' cycles' capacity_cycles' 0
                  (monthly_profit self) (total_profit self)])
            (month_current self)
            (buy_log self ++ [(timestamp, amount_kwh, price)])).

(** Body of the [if self.balance > 0:] branch of [sell_energy] for the
    lot [(buy_time, buy_amount, buy_price)]. *)
Definition sell_lot (cfg : Config) (self : State) (timestamp : Timestamp)
  (price : Q) (lot : Lot) : State :=
  let amount_kwh := pymin3 (speed cfg) (balance self) (lot_amount lot) in
  let profit :=
    (amount_kwh * (price + tax_fixed_returnable cfg) * efficiency cfg)
    - (amount_kwh * (lot_price lot + tax_fixed_returnable cfg)) in
  let reset := negb (month_current self =? month timestamp)%Z in
  let month_current' :=
    if reset then month timestamp else month_current self in
  let monthly0 := if reset then 0 else monthly_profit self in
  let total_profit' := total_profit self + profit in
  let monthly_profit' := monthly0 + profit in
  let balance' := balance self - amount_kwh in
  mkState balance' (cycles self) (capacity_cycles self)
    total_profit' monthly_profit'
    (transactions self ++
       [Transaction.mk timestamp sell amount_kwh
          (amount_kwh * price * efficiency cfg) price
          balance' (cycles self) (capacity_cycles self) profit
          monthly_profit' total_profit'])
    month_current'
    (list_remove lot (buy_log self)).

(** The [for ... in buy_log] loop of [sell_energy]: an iteration whose
    test [self.balance > 0] fails changes nothing and moves on; the first
    one that passes handles its lot and leaves the loop with [break]. *)
Fixpoint sell_loop (cfg : Config) (self : State) (timestamp : Timestamp)
  (price : Q) (iter : list Lot) : State :=
  match iter with
  | [] => self
  | lot :: rest =>
      if Qgtb (balance self) 0
      then sell_lot cfg self timestamp price lot
      else sell_loop cfg self timestamp price rest
  end.

Definition sell_energy (cfg : Config) (self : State) (timestamp : Timestamp)
  (price : Q) : State :=
  sell_loop cfg self timestamp price (buy_log self).

(** [execute_trade]; its third argument [amount] is never read. *)
Definition execute_trade (cfg : Config) (data : list PricePoint)
  (self : State) (buy_time sell_time : Timestamp) (amount : Q)
  : option State :=
  let amount_kwh := pymin (speed cfg) (capacity cfg - balance self) in
  buy_price <- loc_price data buy_time ;;
  sell_price <- loc_price data sell_time ;;
  self1 <- buy_energy cfg self buy_time amount_kwh buy_price ;;
  Some (sell_energy cfg self1 sell_time sell_price).

(** ** Day-level driver: [run] *)

(** The test [last_sell_time is None or buy_time > last_sell_time]. *)
Definition may_execute (last_sell_time : option Timestamp)
  (buy_time : Timestamp) : bool :=
  match last_sell_time with
  | None => true
  | Some last => ts_gtb buy_time last
  end.

(** One iteration of the inner loop of [run]: the guarded call of
    [execute_trade], then the assignment [last_sell_time = sell_time]. *)
Definition run_trade (cfg : Config) (data : list PricePoint)
  (acc : State * option Timestamp) (tr : Trade)
  : option (State * option Timestamp) :=
  let '(self, last_sell_time) := acc in
  let '(buy_time, sell_time, profit) := tr in
  self' <- (if may_execute last_sell_time buy_time
            then execute_trade cfg data self buy_time sell_time profit
            else Some self) ;;
  Some (self', Some sell_time).

(** The inner [for buy_time, sell_time, profit_kwh in best_trades] loop. *)
Fixpoint run_trades (cfg : Config) (data : list PricePoint)
  (acc : State * option Timestamp) (best_trades : list Trade)
  : option (State * option Timestamp) :=
  match best_trades with
  | [] => Some acc
  | tr :: rest =>
      acc' <- run_trade cfg data acc tr ;;
      run_trades cfg data acc' rest
  end.

(** The outer [for date, day_data in self.data.resample('D')] loop. *)
Fixpoint run_days (cfg : Config) (data : list PricePoint)
  (acc : State * option Timestamp) (days : list (list PricePoint))
  : option (State * option Timestamp) :=
  match days with
  | [] => Some acc
  | day_data :: rest =>
      acc' <- run_trades cfg data acc (find_best_trade cfg day_data) ;;
      run_days cfg data acc' rest
  end.

(** [run] on a price frame given by its daily groups [days], the
    successive [day_data] of [self.data.resample('D')]; [self.data] is
    their concatenation.  The result is the final state, whose
    [transactions] are what [save_results] writes. *)
Definition run (cfg : Config) (days : list (list PricePoint))
  : option State :=
  acc <- run_days cfg (concat days) (init_state, None) days ;;
  Some (fst acc).

(** ** Construction: [BatteryTrading.__init__] *)

(** [DataFrame.drop_duplicates()] on the frame indexed by [Date]: the
    index is ignored, so a row is dropped when an earlier row has the
    same [Price]. *)
Fixpoint drop_duplicates_from (seen : list Q) (data : list PricePoint)
  : list PricePoint :=
  match data with
  | [] => []
  | (t, p) :: rest =>
      if existsb (Qeq_bool p) seen
      then drop_duplicates_from seen rest
      else (t, p) :: drop_duplicates_from (p :: seen) rest
  end.

Definition drop_duplicates (data : list PricePoint) : list PricePoint :=
  drop_duplicates_from [] data.

(** A constructed object: the stored parameters, the loaded frame and
    the mutable attributes. *)
Record BatteryTrading := mkBatteryTrading {
  config : Config;
  data : list PricePoint;
  state : State
}.

(** [__init__] with the result of [pd.read_csv(filename)] made explicit:
    [None] when reading or parsing the file raises.  The parameters are
    stored as given. *)
Definition BatteryTrading_init (csv : option (list PricePoint))
  (capacity speed efficiency : Q) (day_ahead_time : Z)
  (profit_min tax_fixed_returnable : Q) : option BatteryTrading :=
  frame <- csv ;;
  Some (mkBatteryTrading
          (mkConfig capacity speed efficiency day_ahead_time profit_min
             tax_fixed_returnable)
          (drop_duplicates frame)
          init_state).

(** * Notions used in the statements *)

(** The condition under which the inner loop appends a tuple. *)
Definition admissible (cfg : Config) (rows : PricePoint * PricePoint) : bool :=
  ts_gtb (fst (snd rows)) (fst (fst rows))
  && Qle_bool (profit_min cfg)
       (profit_kwh cfg (snd (fst rows)) (snd (snd rows))).

(** The tuple appended for a pair of rows. *)
Definition trade_of (cfg : Config) (rows : PricePoint * PricePoint) : Trade :=
  (fst (fst rows), fst (snd rows),
   profit_kwh cfg (snd (fst rows)) (snd (snd rows))).

(** Descending order of unit profit. *)
Definition profit_ge (a b : Trade) : Prop := trade_profit b <= trade_profit a.

(** The candidates of unit profit [q], in list order. *)
Definition with_profit (q : Q) (l : list Trade) : list Trade :=
  filter (fun t => Qeq_bool (trade_profit t) q) l.

(** Rows in strictly ascending timestamp order. *)
Definition row_before (a b : PricePoint) : Prop :=
  ts_gtb (fst b) (fst a) = true.

(** Enumeration order of the tuples: buy timestamp ascending, then sell
    timestamp ascending. *)
Definition enum_before (a b : Trade) : Prop :=
  ts_gtb (trade_buy b) (trade_buy a) = true
  \/ (trade_buy a = trade_buy b
      /\ ts_gtb (trade_sell b) (trade_sell a) = true).

(** The timestamps appended to [used_timestamps] for the accepted tuples. *)
Definition used_of (grouped : list Trade) : list Timestamp :=
  flat_map (fun t => [trade_buy t; trade_sell t]) grouped.

(** A tuple shares its buy or its sell timestamp with an accepted one. *)
Definition clashes (c : Trade) (accepted : list Trade) : bool :=
  existsb (fun a =>
    ts_eqb (trade_buy c) (trade_buy a) || ts_eqb (trade_buy c) (trade_sell a)
    || ts_eqb (trade_sell c) (trade_buy a)
    || ts_eqb (trade_sell c) (trade_sell a)) accepted.

(** One iteration of the greedy pass, on the accepted list alone. *)
Definition greedy_step (accepted : list Trade) (c : Trade) : list Trade :=
  if clashes c accepted then accepted else accepted ++ [c].

(** The greedy pass on its own: [group_loop] from empty accumulators. *)
Definition greedy (l : list Trade) : list Trade := group_loop l [] [].

(** All tuples the driver considers during a run, in order: the
    selector's output for each day, day after day. *)
Definition considered (cfg : Config) (days : list (list PricePoint))
  : list Trade :=
  concat (map (find_best_trade cfg) days).

(** The sell timestamp of the tuple considered last in [pre], if any. *)
Definition previous_sell (pre : list Trade) : option Timestamp :=
  match rev pre with
  | [] => None
  | prev :: _ => Some (trade_sell prev)
  end.

(** The rule as the specification words it: the reference is the sell
    timestamp of the pair executed most recently ([last_executed]), and
    a dropped pair leaves that reference alone.  The function returns the
    pairs this rule would execute. *)
Fixpoint executed_by_stated_rule (last_executed : option Timestamp)
  (trades : list Trade) : list Trade :=
  match trades with
  | [] => []
  | tr :: rest =>
      if may_execute last_executed (trade_buy tr)
      then tr :: executed_by_stated_rule (Some (trade_sell tr)) rest
      else executed_by_stated_rule last_executed rest
  end.

(** The buy timestamps in a ledger: one per executed pair. *)
Definition is_buy (row : Transaction.t) : bool :=
  match Transaction.action row with buy => true | sell => false end.

Definition bought_at (ledger : list Transaction.t) : list Timestamp :=
  map Transaction.date (filter is_buy ledger).

(** A valid configuration in the sense of the specification. *)
Definition valid_config (cfg : Config) : Prop :=
  0 < capacity cfg
  /\ 0 < speed cfg /\ speed cfg <= capacity cfg
  /\ 0 < efficiency cfg /\ efficiency cfg <= 1.

(** Sum of the amounts of the pending lots. *)
Definition lots_total (log : list Lot) : Q :=
  fold_right (fun lot acc => lot_amount lot + acc) 0 log.

Definition lot_ok (cfg : Config) (lot : Lot) : Prop :=
  0 <= lot_amount lot /\ lot_amount lot <= speed cfg.

Definition row_ok (cfg : Config) (row : Transaction.t) : Prop :=
  0 <= Transaction.balance row /\ Transaction.balance row <= capacity cfg.

(** What every state of a run satisfies. *)
Record engine_inv (cfg : Config) (self : State) : Prop := mk_engine_inv {
  inv_total : lots_total (buy_log self) == balance self;
  inv_lots : Forall (lot_ok cfg) (buy_log self);
  inv_lower : 0 <= balance self;
  inv_upper : balance self <= capacity cfg;
  inv_rows : Forall (row_ok cfg) (transactions self)
}.

(** The states a run goes through: the state before each considered
    pair and after the last one (which is also the state after the sell
    of the pair before), and the state between the buy and the sell of
    each executed pair. *)
Inductive run_point (cfg : Config) (days : list (list PricePoint))
  : State -> Prop :=
| point_between (pre post : list Trade) (acc : State * option Timestamp) :
    considered cfg days = pre ++ post ->
    run_trades cfg (concat days) (init_state, None) pre = Some acc ->
    run_point cfg days (fst acc)
| point_after_buy (pre post : list Trade) (tr : Trade)
    (acc : State * option Timestamp) (buy_price : Q) (self1 : State) :
    considered cfg days = pre ++ tr :: post ->
    run_trades cfg (concat days) (init_state, None) pre = Some acc ->
    may_execute (snd acc) (trade_buy tr) = true ->
    loc_price (concat days) (trade_buy tr) = Some buy_price ->
    buy_energy cfg (fst acc) (trade_buy tr)
      (pymin (speed cfg) (capacity cfg - balance (fst acc))) buy_price
      = Some self1 ->
    run_point cfg days self1.

(** The configuration errors named by the specification. *)
Definition config_error (capacity speed efficiency : Q) : Prop :=
  capacity <= 0 \/ speed <= 0 \/ efficiency <= 0 \/ 1 < efficiency.

Definition at_hour (h : Z) : Timestamp := mkTs 2023 1 1 h.

(** Scenario A of the specification: efficiency 1, no tax, minimum
    profit 0.03, speed = capacity = 5. *)
Definition cfgA : Config := mkConfig 5 5 1 16 (3 # 100) 0.

Definition dayA : list PricePoint :=
  [(at_hour 10, 1 # 10); (at_hour 11, 1 # 2)].

(** The parameters of the script's [__main__] block. *)
Definition cfg_main : Config :=
  mkConfig 5 5 (95 # 100) 16 (3 # 100) (17 # 100).

(** A day on which the selector returns, in this order, the pairs
    10h -> 20h, 5h -> 8h and 9h -> 12h. *)
Definition dayX : list PricePoint :=
  [(at_hour 5, 10 # 1); (at_hour 8, 60 # 1); (at_hour 9, 30 # 1);
   (at_hour 10, 0); (at_hour 12, 50 # 1); (at_hour 20, 100 # 1)].

Definition pairX1 : Trade := (at_hour 10, at_hour 20, 100).
Definition pairX2 : Trade := (at_hour 5, at_hour 8, 50).
Definition pairX3 : Trade := (at_hour 9, at_hour 12, 20).

(** The state of scenario A between its buy and its sell. *)
Definition stateA_bought : State :=
  mkState (0 + 5) 1 (0 + 5 / 5) 0 0
    [Transaction.mk (at_hour 10) buy 5 (5 * (1 # 10)) (1 # 10) (0 + 5) 1
       (0 + 5 / 5) 0 0 0]
    0 [(at_hour 10, 5, 1 # 10)].

Ltac qcompute :=
  vm_compute; try reflexivity; try (intro; discriminate).

(** * Further notions *)

(** Two tuples have a timestamp in common. *)
Definition shares_timestamp (c a : Trade) : Prop :=
  trade_buy c = trade_buy a \/ trade_buy c = trade_sell a
  \/ trade_sell c = trade_buy a \/ trade_sell c = trade_sell a.

(** The pairs for which the test of [run] succeeds when [trades] are
    considered in order, [last] being the value of [last_sell_time]
    before the first of them; every pair, executed or not, sets the
    reference for the next one. *)
Fixpoint executed_from (last : option Timestamp) (trades : list Trade)
  : list Trade :=
  match trades with
  | [] => []
  | tr :: rest =>
      if may_execute last (trade_buy tr)
      then tr :: executed_from (Some (trade_sell tr)) rest
      else executed_from (Some (trade_sell tr)) rest
  end.

(** The [date] and [action] columns of a ledger. *)
Definition ledger_keys (ledger : list Transaction.t)
  : list (Timestamp * Action) :=
  map (fun r => (Transaction.date r, Transaction.action r)) ledger.

(** The two rows an executed pair is expected to leave. *)
Definition pair_keys (tr : Trade) : list (Timestamp * Action) :=
  [(trade_buy tr, buy); (trade_sell tr, sell)].

(** Sum of the [profit] column of a ledger. *)
Definition profit_sum (ledger : list Transaction.t) : Q :=
  fold_right (fun r acc => Transaction.profit r + acc) 0 ledger.

(** Capacity and speed are positive; nothing is asked of the efficiency
    nor of the speed relative to the capacity. *)
Definition positive_config (cfg : Config) : Prop :=
  0 < capacity cfg /\ 0 < speed cfg.

(** Energy moved into the battery by a row: the amount of a buy, minus
    the amount of a sell. *)
Definition row_energy (r : Transaction.t) : Q :=
  match Transaction.action r with
  | buy => Transaction.amount_kwh r
  | sell => - Transaction.amount_kwh r
  end.

(** Net energy moved by a ledger. *)
Definition energy_sum (ledger : list Transaction.t) : Q :=
  fold_right (fun r acc => row_energy r + acc) 0 ledger.

(** The configuration with another [day_ahead_time]. *)
Definition with_day_ahead_time (cfg : Config) (d : Z) : Config :=
  mkConfig (capacity cfg) (speed cfg) (efficiency cfg) d (profit_min cfg)
    (tax_fixed_returnable cfg).

(** Scenario A with a speed of -1, and with a capacity of 0. *)
Definition cfg_no_speed : Config := mkConfig 5 (-1) 1 16 (3 # 100) 0.

Definition cfg_no_capacity : Config := mkConfig 0 5 1 16 (3 # 100) 0.

(** The candidate 5h -> 20h of [dayX], which the selector leaves out. *)
Definition pairX4 : Trade := (at_hour 5, at_hour 20, 90).

(** A day of three rows at the same price. *)
Definition day_flat : list PricePoint :=
  [(at_hour 1, 1 # 5); (at_hour 2, 1 # 5); (at_hour 3, 1 # 5)].

(** * The engine on binary64 numbers

    The same source functions with the program's own arithmetic: Python
    [float] is IEEE 754 binary64, which is what [PrimFloat] computes.
    Statements that depend on how sums and products round are checked
    against these definitions. *)

Module Binary64.

Record Config := mkConfig {
  capacity : float;
  speed : float;
  efficiency : float;
  day_ahead_time : Z;
  profit_min : float;
  tax_fixed_returnable : float
}.

Definition PricePoint : Type := (Timestamp * float)%type.

Definition Trade : Type := (Timestamp * Timestamp * float)%type.

(** The expression assigned to [profit_kwh] in [find_best_trade]. *)
Definition profit_kwh (cfg : Config) (buy_price sell_price : float) : float :=
  ((sell_price + tax_fixed_returnable cfg) * efficiency cfg
   - (buy_price + tax_fixed_returnable cfg))%float.

(** Body of the inner loop of [find_best_trade] for one buy row and one
    sell row; [profit_kwh >= self.profit_min] is [leb profit_min _]. *)
Definition candidate (cfg : Config) (buy_row sell_row : PricePoint)
  : list Trade :=
  if ts_gtb (fst sell_row) (fst buy_row) then
    let p := profit_kwh cfg (snd buy_row) (snd sell_row) in
    if PrimFloat.leb (profit_min cfg) p
    then [(fst buy_row, fst sell_row, p)]
    else []
  else [].

(** Python's [min(a, b)] and [min(a, b, c)]: the first argument unless a
    later one is strictly smaller. *)
Definition pymin (a b : float) : float :=
  if PrimFloat.ltb b a then b else a.

Definition pymin3 (a b c : float) : float := pymin (pymin a b) c.

Definition Lot : Type := (Timestamp * float * float)%type.

Definition lot_amount (l : Lot) : float := snd (fst l).
Definition lot_price (l : Lot) : float := snd l.

(** Equality of two list elements as [list.remove] tests it: the same
    object, or equal by [==]. *)
Definition float_same (a b : float) : bool :=
  PrimFloat.eqb a b || (PrimFloat.is_nan a && PrimFloat.is_nan b).

Definition lot_eqb (a b : Lot) : bool :=
  ts_eqb (fst (fst a)) (fst (fst b))
  && float_same (lot_amount a) (lot_amount b)
  && float_same (lot_price a) (lot_price b).

Fixpoint list_remove (x : Lot) (l : list Lot) : list Lot :=
  match l with
  | [] => []
  | y :: l' => if lot_eqb y x then l' else y :: list_remove x l'
  end.

(** One element of [self.transactions]. *)
Record LedgerRow := mkLedgerRow {
  date : Timestamp;
  action : Action;
  amount_kwh : float;
  amount_eur : float;
  price : float;
  row_balance : float;
  row_cycles : Z;
  row_capacity_cycles : float;
  profit : float;
  month_profit : float;
  row_total_profit : float
}.

Record State := mkState {
  balance : float;
  cycles : Z;
  capacity_cycles : float;
  total_profit : float;
  monthly_profit : float;
  transactions : list LedgerRow;
  month_current : Z;
  buy_log : list Lot
}.

(** [buy_energy]; dividing by a zero capacity raises. *)
Definition buy_energy (cfg : Config) (self : State) (timestamp : Timestamp)
  (amount : float) (buy_price : float) : option State :=
  if PrimFloat.eqb (capacity cfg) 0 then None
  else
    let balance' := (balance self + amount)%float in
    let cycles' := (cycles self + 1)%Z in
    let capacity_cycles' :=
      (capacity_cycles self + amount / capacity cfg)%float in
    Some (mkState balance' cycles' capacity_cycles'
            (total_profit self) (monthly_profit self)
            (transactions self ++
               [mkLedgerRow timestamp buy amount (amount * buy_price)%float
                  buy_price balance' cycles' capacity_cycles' 0%float
                  (monthly_profit self) (total_profit self)])
            (month_current self)
            (buy_log self ++ [(timestamp, amount, buy_price)])).

(** Body of the [if self.balance > 0:] branch of [sell_energy]. *)
Definition sell_lot (cfg : Config) (self : State) (timestamp : Timestamp)
  (sell_price : float) (lot : Lot) : State :=
  let amount := pymin3 (speed cfg) (balance self) (lot_amount lot) in
  let gain :=
    ((amount * (sell_price + tax_fixed_returnable cfg) * efficiency cfg)
     - (amount * (lot_price lot + tax_fixed_returnable cfg)))%float in
  let reset := negb (month_current self =? month timestamp)%Z in
  let month_current' :=
    if reset then month timestamp else month_current self in
  let monthly0 := if reset then 0%float else monthly_profit self in
  let total_profit' := (total_profit self + gain)%float in
  let monthly_profit' := (monthly0 + gain)%float in
  let balance' := (balance self - amount)%float in
  mkState balance' (cycles self) (capacity_cycles self)
    total_profit' monthly_profit'
    (transactions self ++
       [mkLedgerRow timestamp sell amount
          (amount * sell_price * efficiency cfg)%float sell_price
          balance' (cycles self) (capacity_cycles self) gain
          monthly_profit' total_profit'])
    month_current'
    (list_remove lot (buy_log self)).

(** The [for ... in buy_log] loop of [sell_energy], left by [break]
    after the first iteration whose test [self.balance > 0] passes. *)
Fixpoint sell_loop (cfg : Config) (self : State) (timestamp : Timestamp)
  (sell_price : float) (iter : list Lot) : State :=
  match iter with
  | [] => self
  | lot :: rest =>
      if PrimFloat.ltb 0 (balance self)
      then sell_lot cfg self timestamp sell_price lot
      else sell_loop cfg self timestamp sell_price rest
  end.

Definition sell_energy (cfg : Config) (self : State) (timestamp : Timestamp)
  (sell_price : float) : State :=
  sell_loop cfg self timestamp sell_price (buy_log self).

End Binary64.

(** A sell in the month already tracked: efficiency 0.95, tax 0.17,
    threshold 0, speed = capacity = 5; 0.5 EUR earned so far in January;
    buy at 0.065144 EUR/kWh at 10h, sell at 0.07752 EUR/kWh at 11h. *)
Definition cfg64 : Binary64.Config :=
  Binary64.mkConfig 5 5 0.95 16 0 0.17.

Definition state64_idle : Binary64.State :=
  Binary64.mkState 0 3 3 0.5 0.5 [] 1 [].

Definition state64_bought : Binary64.State :=
  match
    Binary64.buy_energy cfg64 state64_idle (at_hour 10)
      (Binary64.pymin (Binary64.speed cfg64)
         (Binary64.capacity cfg64 - Binary64.balance state64_idle)%float)
      0.065144
  with
  | Some st => st
  | None => state64_idle
  end.

(** * Properties *)

(** ** Comparisons *)

Lemma Qgtb_true (x y : Q) : Qgtb x y = true <-> y < x.
Proof.
  unfold Qgtb. rewrite negb_true_iff. split; intro H.
  - apply Qnot_le_lt. intro Hle. apply Qle_bool_iff in Hle. congruence.
  - destruct (Qle_bool x y) eqn:E; [|reflexivity].
    apply Qle_bool_iff in E. exfalso. apply (Qlt_not_le _ _ H E).
Qed.

Lemma Qgtb_false (x y : Q) : Qgtb x y = false <-> x <= y.
Proof.
  unfold Qgtb. rewrite negb_false_iff. apply Qle_bool_iff.
Qed.

Lemma ts_compare_refl (a : Timestamp) : ts_compare a a = Eq.
Proof. unfold ts_compare. now rewrite !Z.compare_refl. Qed.

Lemma ts_eqb_refl (a : Timestamp) : ts_eqb a a = true.
Proof. unfold ts_eqb. now rewrite ts_compare_refl. Qed.

Lemma ts_gtb_irrefl (a : Timestamp) : ts_gtb a a = false.
Proof. unfold ts_gtb. now rewrite ts_compare_refl. Qed.

Lemma ts_eqb_eq (a b : Timestamp) : ts_eqb a b = true <-> a = b.
Proof.
  split; [|intros ->; apply ts_eqb_refl].
  unfold ts_eqb, ts_compare. destruct a as [y1 m1 d1 h1], b as [y2 m2 d2 h2].
  simpl.
  destruct (Z.compare_spec y1 y2); try discriminate.
  destruct (Z.compare_spec m1 m2); try discriminate.
  destruct (Z.compare_spec d1 d2); try discriminate.
  destruct (Z.compare_spec h1 h2); try discriminate.
  intros _. congruence.
Qed.

Lemma lot_eqb_refl (l : Lot) : lot_eqb l l = true.
Proof.
  unfold lot_eqb. rewrite ts_eqb_refl. simpl.
  rewrite !andb_true_iff. split; apply Qeq_bool_iff; reflexivity.
Qed.

Lemma pymin_le_l (a b : Q) : pymin a b <= a.
Proof.
  unfold pymin. destruct (Qgtb a b) eqn:E.
  - apply Qgtb_true in E. now apply Qlt_le_weak.
  - apply Qle_refl.
Qed.

Lemma pymin_le_r (a b : Q) : pymin a b <= b.
Proof.
  unfold pymin. destruct (Qgtb a b) eqn:E.
  - apply Qle_refl.
  - now apply Qgtb_false in E.
Qed.

Lemma pymin_glb (a b c : Q) : c <= a -> c <= b -> c <= pymin a b.
Proof. intros Ha Hb. unfold pymin. now destruct (Qgtb a b). Qed.

Lemma pymin_left (a b : Q) : a <= b -> pymin a b = a.
Proof.
  intro H. unfold pymin. apply Qgtb_false in H. now rewrite H.
Qed.

(** ** The candidate enumeration *)

Lemma candidate_inner (cfg : Config) (b : PricePoint) (l : list PricePoint) :
  flat_map (fun s => candidate cfg b s) l =
  map (trade_of cfg) (filter (admissible cfg) (map (fun s => (b, s)) l)).
Proof.
  induction l as [|s l IH]; simpl; [reflexivity|].
  rewrite IH. unfold candidate at 1, admissible at 2. simpl.
  destruct (ts_gtb (fst s) (fst b)); simpl; [|reflexivity].
  destruct (Qle_bool (profit_min cfg) (profit_kwh cfg (snd b) (snd s)));
    reflexivity.
Qed.

Lemma candidates_outer (cfg : Config) (l l' : list PricePoint) :
  flat_map (fun b => flat_map (fun s => candidate cfg b s) l') l =
  map (trade_of cfg) (filter (admissible cfg) (list_prod l l')).
Proof.
  induction l as [|b l IH]; simpl; [reflexivity|].
  rewrite filter_app, map_app, <- IH, candidate_inner. reflexivity.
Qed.

Lemma candidates_in (cfg : Config) (day_data : list PricePoint)
  (b s : Timestamp) (p : Q) :
  In (b, s, p) (candidates cfg day_data) <->
  exists pb ps,
    In (b, pb) day_data /\ In (s, ps) day_data /\
    ts_gtb s b = true /\
    p = profit_kwh cfg pb ps /\
    profit_min cfg <= p.
Proof.
  unfold candidates. rewrite candidates_outer, in_map_iff. split.
  - intros [[[tb pb] [tsell ps]] [Ht Hin]].
    apply filter_In in Hin. destruct Hin as [Hin Hadm].
    apply in_prod_iff in Hin. destruct Hin as [Hb Hs].
    unfold trade_of in Ht. simpl in Ht. inversion Ht; subst.
    unfold admissible in Hadm. simpl in Hadm.
    apply andb_true_iff in Hadm. destruct Hadm as [Hgt Hle].
    exists pb, ps. repeat split; try assumption.
    now apply Qle_bool_iff in Hle.
  - intros (pb & ps & Hb & Hs & Hgt & Hp & Hle).
    exists ((b, pb), (s, ps)). split.
    + unfold trade_of. simpl. now rewrite Hp.
    + apply filter_In. split; [now apply in_prod_iff|].
      unfold admissible. simpl. rewrite Hgt. simpl.
      apply Qle_bool_iff. now rewrite Hp in Hle.
Qed.

(** C1: the candidate list built by [find_best_trade] holds one tuple
    for each ordered pair of rows of the day whose sell timestamp is
    strictly later than the buy timestamp and whose unit profit
    [(sell_price + tax) * efficiency - (buy_price + tax)] is at least
    [profit_min], in enumeration order, and nothing else; it is the list
    that [find_best_trade] goes on to sort and filter. *)
Theorem candidates_exact (cfg : Config) (day_data : list PricePoint) :
  candidates cfg day_data =
    map (trade_of cfg)
      (filter (admissible cfg) (list_prod day_data day_data))
  /\ (forall b s p,
        In (b, s, p) (candidates cfg day_data) <->
        exists pb ps,
          In (b, pb) day_data /\ In (s, ps) day_data /\
          ts_gtb s b = true /\
          p = (ps + tax_fixed_returnable cfg) * efficiency cfg
              - (pb + tax_fixed_returnable cfg) /\
          profit_min cfg <= p)
  /\ find_best_trade cfg day_data =
       group_loop (sort_desc (candidates cfg day_data)) [] [].
Proof.
  split; [apply candidates_outer|]. split; [|reflexivity].
  intros b s p. apply candidates_in.
Qed.

(** ** The sell step *)

Lemma pymin_Qmin (a b : Q) : pymin a b == Qmin a b.
Proof.
  unfold pymin. destruct (Qgtb a b) eqn:E.
  - apply Qgtb_true in E. symmetry. apply Q.min_r. now apply Qlt_le_weak.
  - apply Qgtb_false in E. symmetry. now apply Q.min_l.
Qed.

Lemma pymin3_Qmin (a b c : Q) : pymin3 a b c == Qmin (Qmin a b) c.
Proof.
  unfold pymin3, pymin.
  destruct (Q.min_spec a b) as [[H1 E1]|[H1 E1]];
    destruct (Q.min_spec (Qmin a b) c) as [[H2 E2]|[H2 E2]];
    revert H2 E2 E1;
    generalize (Qmin (Qmin a b) c); generalize (Qmin a b); intros m n H2 E2 E1;
    destruct (Qgtb a b) eqn:G1;
    [apply Qgtb_true in G1|apply Qgtb_false in G1
    |apply Qgtb_true in G1|apply Qgtb_false in G1
    |apply Qgtb_true in G1|apply Qgtb_false in G1
    |apply Qgtb_true in G1|apply Qgtb_false in G1];
    match goal with
    | |- (if Qgtb ?x c then _ else _) == _ =>
        destruct (Qgtb x c) eqn:G2;
        [apply Qgtb_true in G2|apply Qgtb_false in G2]
    end; lra.
Qed.

Lemma list_remove_head (lot : Lot) (rest : list Lot) :
  list_remove lot (lot :: rest) = rest.
Proof. simpl. now rewrite lot_eqb_refl. Qed.

Lemma sell_loop_empty_battery (cfg : Config) (self : State)
  (timestamp : Timestamp) (price : Q) (iter : list Lot) :
  Qgtb (balance self) 0 = false ->
  sell_loop cfg self timestamp price iter = self.
Proof.
  intro H. induction iter as [|lot rest IH]; simpl; [reflexivity|].
  now rewrite H.
Qed.

Lemma sell_energy_head (cfg : Config) (self : State) (timestamp : Timestamp)
  (price : Q) (lot : Lot) (rest : list Lot) :
  buy_log self = lot :: rest -> 0 < balance self ->
  sell_energy cfg self timestamp price = sell_lot cfg self timestamp price lot.
Proof.
  intros Hlog Hpos. unfold sell_energy. rewrite Hlog. simpl.
  apply Qgtb_true in Hpos. now rewrite Hpos.
Qed.

(** C2: a sell step with a non-empty lot queue and a positive balance
    matches the oldest lot with [min(speed, balance, lot_amount)], adds
    the profit of that amount to the total and (after the month test) to
    the monthly profit, subtracts the amount from the balance, removes
    that one lot and no other, leaves both cycle counters alone, and
    appends exactly one sell row whose monetary amount is
    [match_amount * sell_price * efficiency]. *)
Theorem sell_energy_matches_oldest_lot (cfg : Config) (self : State)
  (timestamp : Timestamp) (price : Q) (lot : Lot) (rest : list Lot) :
  buy_log self = lot :: rest ->
  0 < balance self ->
  let match_amount := pymin3 (speed cfg) (balance self) (lot_amount lot) in
  let profit :=
    match_amount * (price + tax_fixed_returnable cfg) * efficiency cfg
    - match_amount * (lot_price lot + tax_fixed_returnable cfg) in
  let self' := sell_energy cfg self timestamp price in
  match_amount == Qmin (Qmin (speed cfg) (balance self)) (lot_amount lot)
  /\ balance self' = balance self - match_amount
  /\ total_profit self' = total_profit self + profit
  /\ monthly_profit self' =
       (if (month_current self =? month timestamp)%Z
        then monthly_profit self else 0) + profit
  /\ buy_log self' = rest
  /\ cycles self' = cycles self
  /\ capacity_cycles self' = capacity_cycles self
  /\ transactions self' =
       transactions self ++
         [Transaction.mk timestamp sell match_amount
            (match_amount * price * efficiency cfg) price
            (balance self') (cycles self) (capacity_cycles self) profit
            (monthly_profit self') (total_profit self')].
Proof.
  intros Hlog Hpos match_amount profit self'.
  subst self'.
  rewrite (sell_energy_head cfg self timestamp price lot rest Hlog Hpos).
  unfold sell_lot. fold match_amount. fold profit. simpl.
  rewrite Hlog, list_remove_head.
  split; [apply pymin3_Qmin|].
  destruct (month_current self =? month timestamp)%Z; simpl;
    repeat split; reflexivity.
Qed.

(** C9: a sell call made when the balance is zero or the lot queue is
    empty changes no field of the state and appends no row. *)
Theorem sell_energy_noop (cfg : Config) (self : State)
  (timestamp : Timestamp) (price : Q) :
  balance self == 0 \/ buy_log self = [] ->
  sell_energy cfg self timestamp price = self.
Proof.
  intros [Hzero|Hempty]; unfold sell_energy.
  - apply sell_loop_empty_battery. apply Qgtb_false.
    rewrite Hzero. apply Qle_refl.
  - rewrite Hempty. reflexivity.
Qed.

(** ** The buy step *)

Lemma buy_energy_some (cfg : Config) (self : State) (timestamp : Timestamp)
  (amount_kwh price : Q) :
  ~ capacity cfg == 0 ->
  buy_energy cfg self timestamp amount_kwh price =
  Some (mkState (balance self + amount_kwh) (cycles self + 1)%Z
          (capacity_cycles self + amount_kwh / capacity cfg)
          (total_profit self) (monthly_profit self)
          (transactions self ++
             [Transaction.mk timestamp buy amount_kwh (amount_kwh * price) price
                (balance self + amount_kwh) (cycles self + 1)%Z
                (capacity_cycles self + amount_kwh / capacity cfg) 0
                (monthly_profit self) (total_profit self)])
          (month_current self)
          (buy_log self ++ [(timestamp, amount_kwh, price)])).
Proof.
  intro Hcap. unfold buy_energy.
  destruct (Qeq_bool (capacity cfg) 0) eqn:E; [|reflexivity].
  apply Qeq_bool_iff in E. contradiction.
Qed.

(** C5: for an executed pair (prices found, capacity not zero) the buy
    step is [buy_energy] with [amount = min(speed, capacity - balance)];
    whatever that amount is, it adds the amount to the balance, one to
    the cycle counter and [amount / capacity] to the capacity-cycle
    counter, appends the lot [(buy_time, amount, buy_price)] at the back
    of the queue and appends one buy row with profit 0 and the monthly
    and total profit it found; the sell step then runs on that state. *)
Theorem execute_trade_buy_step (cfg : Config) (frame : list PricePoint)
  (self : State) (buy_time sell_time : Timestamp)
  (profit buy_price sell_price : Q) :
  ~ capacity cfg == 0 ->
  loc_price frame buy_time = Some buy_price ->
  loc_price frame sell_time = Some sell_price ->
  let amount := pymin (speed cfg) (capacity cfg - balance self) in
  exists self1,
    buy_energy cfg self buy_time amount buy_price = Some self1
    /\ execute_trade cfg frame self buy_time sell_time profit =
         Some (sell_energy cfg self1 sell_time sell_price)
    /\ amount == Qmin (speed cfg) (capacity cfg - balance self)
    /\ balance self1 = balance self + amount
    /\ cycles self1 = (cycles self + 1)%Z
    /\ capacity_cycles self1 = capacity_cycles self + amount / capacity cfg
    /\ buy_log self1 = buy_log self ++ [(buy_time, amount, buy_price)]
    /\ total_profit self1 = total_profit self
    /\ monthly_profit self1 = monthly_profit self
    /\ month_current self1 = month_current self
    /\ transactions self1 =
         transactions self ++
           [Transaction.mk buy_time buy amount (amount * buy_price) buy_price
              (balance self1) (cycles self1) (capacity_cycles self1) 0
              (monthly_profit self) (total_profit self)].
Proof.
  intros Hcap Hb Hs amount.
  pose proof (buy_energy_some cfg self buy_time amount buy_price Hcap) as E.
  eexists. split; [exact E|].
  split.
  - unfold execute_trade. fold amount. rewrite Hb, Hs. simpl.
    rewrite E. reflexivity.
  - split; [apply pymin_Qmin|]. simpl. repeat split; reflexivity.
Qed.

(** ** Month profit *)

Lemma sell_lot_monthly (cfg : Config) (self : State) (timestamp : Timestamp)
  (price : Q) (lot : Lot) :
  let match_amount := pymin3 (speed cfg) (balance self) (lot_amount lot) in
  let profit :=
    match_amount * (price + tax_fixed_returnable cfg) * efficiency cfg
    - match_amount * (lot_price lot + tax_fixed_returnable cfg) in
  month_current (sell_lot cfg self timestamp price lot) = month timestamp
  /\ monthly_profit (sell_lot cfg self timestamp price lot)
     = (if (month_current self =? month timestamp)%Z
        then monthly_profit self else 0) + profit.
Proof.
  unfold sell_lot. simpl.
  destruct (month_current self =? month timestamp)%Z eqn:E; simpl;
    split; try reflexivity.
  now apply Z.eqb_eq in E.
Qed.

(** C8 (as amended): a sell action sets the tracked month to the month
    of its timestamp, before its profit is added.  The monthly profit
    restarts from zero whenever that month differs from the tracked one,
    and it is kept when the sell falls in the same calendar month (same
    year, same month) as the sell [prev] that set the tracked month; the
    action's recorded profit is then added, so that within such a month
    the monthly profit does not decrease when the recorded profit is not
    negative.  A buy action changes neither the monthly profit nor the
    tracked month. *)
Theorem monthly_profit_reset_and_growth (cfg : Config) (self : State)
  (timestamp : Timestamp) (price : Q) (lot : Lot) (rest : list Lot) :
  buy_log self = lot :: rest ->
  0 < balance self ->
  let match_amount := pymin3 (speed cfg) (balance self) (lot_amount lot) in
  let profit :=
    match_amount * (price + tax_fixed_returnable cfg) * efficiency cfg
    - match_amount * (lot_price lot + tax_fixed_returnable cfg) in
  let self' := sell_energy cfg self timestamp price in
  month_current self' = month timestamp
  /\ (month_current self <> month timestamp ->
      monthly_profit self' = 0 + profit)
  /\ (forall prev,
        month_current self = month prev ->
        year timestamp = year prev -> month timestamp = month prev ->
        monthly_profit self' = monthly_profit self + profit
        /\ (0 <= profit -> monthly_profit self <= monthly_profit self'))
  /\ (forall buy_time amount buy_price self1,
        buy_energy cfg self buy_time amount buy_price = Some self1 ->
        monthly_profit self1 = monthly_profit self
        /\ month_current self1 = month_current self).
Proof.
  intros Hlog Hpos match_amount profit self'.
  subst self'.
  rewrite (sell_energy_head cfg self timestamp price lot rest Hlog Hpos).
  destruct (sell_lot_monthly cfg self timestamp price lot) as [Hm Hp].
  fold match_amount in Hp. fold profit in Hp.
  split; [exact Hm|]. split; [|split].
  - intro Hne. rewrite Hp. apply Z.eqb_neq in Hne. now rewrite Hne.
  - intros prev Htracked _ Hmonth.
    assert (E : (month_current self =? month timestamp)%Z = true)
      by (apply Z.eqb_eq; congruence).
    rewrite Hp, E. split; [reflexivity|]. intro H0. lra.
  - intros buy_time amount buy_price self1 Hbuy. unfold buy_energy in Hbuy.
    destruct (Qeq_bool (capacity cfg) 0); [discriminate|].
    inversion Hbuy; subst; simpl. split; reflexivity.
Qed.

(** ** Sorting the candidates *)

Section SortedLists.
Variable A : Type.
Variable R : A -> A -> Prop.

Lemma StronglySorted_app (l1 l2 : list A) :
  StronglySorted R l1 -> StronglySorted R l2 ->
  (forall x y, In x l1 -> In y l2 -> R x y) ->
  StronglySorted R (l1 ++ l2).
Proof.
  intros H1 H2 H12. induction H1 as [|a l1 Hs IH Hall]; simpl.
  - exact H2.
  - constructor.
    + apply IH. intros x y Hx Hy. apply H12; [now right|assumption].
    + apply Forall_app. split; [assumption|].
      apply Forall_forall. intros y Hy. apply H12; [now left|assumption].
Qed.

Lemma StronglySorted_filter (f : A -> bool) (l : list A) :
  StronglySorted R l -> StronglySorted R (filter f l).
Proof.
  induction 1 as [|a l Hs IH Hall]; simpl; [constructor|].
  destruct (f a); [|assumption].
  constructor; [assumption|].
  apply Forall_forall. intros y Hy. apply filter_In in Hy.
  rewrite Forall_forall in Hall. now apply Hall.
Qed.

Lemma StronglySorted_drop_middle (l1 : list A) (x : A) (l2 : list A) :
  StronglySorted R (l1 ++ x :: l2) -> StronglySorted R (l1 ++ l2).
Proof.
  induction l1 as [|a l1 IH]; simpl; intro H.
  - now inversion H.
  - inversion H as [|a' l' Hs Hall]; subst. constructor; [now apply IH|].
    rewrite Forall_app in *. destruct Hall as [Ha Hb].
    split; [assumption|now inversion Hb].
Qed.
End SortedLists.

Lemma StronglySorted_map (A B : Type) (R : B -> B -> Prop) (f : A -> B)
  (l : list A) :
  StronglySorted (fun x y => R (f x) (f y)) l -> StronglySorted R (map f l).
Proof.
  induction 1 as [|a l Hs IH Hall]; simpl; constructor; [assumption|].
  apply Forall_map. exact Hall.
Qed.

Lemma insert_desc_perm (x : Trade) (l : list Trade) :
  Permutation (insert_desc x l) (x :: l).
Proof.
  induction l as [|y l IH]; simpl; [reflexivity|].
  destruct (Qle_bool (trade_profit y) (trade_profit x)); [reflexivity|].
  rewrite IH. apply perm_swap.
Qed.

Lemma sort_desc_perm (l : list Trade) : Permutation (sort_desc l) l.
Proof.
  induction l as [|x l IH]; simpl; [reflexivity|].
  rewrite insert_desc_perm. now constructor.
Qed.

Lemma insert_desc_sorted (x : Trade) (l : list Trade) :
  StronglySorted profit_ge l -> StronglySorted profit_ge (insert_desc x l).
Proof.
  induction 1 as [|y l Hs IH Hall]; simpl.
  - constructor; constructor.
  - destruct (Qle_bool (trade_profit y) (trade_profit x)) eqn:E.
    + apply Qle_bool_iff in E. constructor.
      * now constructor.
      * constructor; [exact E|].
        eapply Forall_impl; [|exact Hall].
        intros z Hz. unfold profit_ge in *.
        now apply Qle_trans with (trade_profit y).
    + constructor; [assumption|].
      assert (Hxy : profit_ge y x).
      { unfold profit_ge. apply Qlt_le_weak. apply Qnot_le_lt.
        intro Hle. apply Qle_bool_iff in Hle. congruence. }
      eapply Permutation_Forall.
      * symmetry. apply insert_desc_perm.
      * now constructor.
Qed.

Lemma sort_desc_sorted (l : list Trade) :
  StronglySorted profit_ge (sort_desc l).
Proof.
  induction l as [|x l IH]; simpl; [constructor|].
  now apply insert_desc_sorted.
Qed.

Lemma insert_desc_stable (q : Q) (x : Trade) (l : list Trade) :
  with_profit q (insert_desc x l) = with_profit q (x :: l).
Proof.
  unfold with_profit.
  induction l as [|y l IH]; simpl; [reflexivity|].
  destruct (Qle_bool (trade_profit y) (trade_profit x)) eqn:E;
    [reflexivity|].
  simpl. rewrite IH. simpl.
  destruct (Qeq_bool (trade_profit x) q) eqn:Ex; [|reflexivity].
  destruct (Qeq_bool (trade_profit y) q) eqn:Ey; [|reflexivity].
  exfalso. apply Qeq_bool_iff in Ex, Ey.
  assert (Hle : trade_profit y <= trade_profit x)
    by (rewrite Ex, Ey; apply Qle_refl).
  apply Qle_bool_iff in Hle. congruence.
Qed.

Lemma sort_desc_stable (q : Q) (l : list Trade) :
  with_profit q (sort_desc l) = with_profit q l.
Proof.
  induction l as [|x l IH]; simpl; [reflexivity|].
  rewrite insert_desc_stable. unfold with_profit in *. simpl.
  now rewrite IH.
Qed.

(** ** Enumeration order and the greedy pass *)

Lemma list_prod_enum_sorted (cfg : Config) (l l' : list PricePoint) :
  StronglySorted row_before l -> StronglySorted row_before l' ->
  StronglySorted (fun x y => enum_before (trade_of cfg x) (trade_of cfg y))
    (list_prod l l').
Proof.
  intros Hl Hl'. induction Hl as [|b l Hs IH Hall]; simpl; [constructor|].
  apply StronglySorted_app.
  - clear IH Hall Hs. induction Hl' as [|s l' Hs' IH' Hall']; simpl;
      constructor; [assumption|].
    apply Forall_map. eapply Forall_impl; [|exact Hall'].
    intros s' Hs0. right. split; [reflexivity|exact Hs0].
  - exact IH.
  - intros x y Hx Hy. apply in_map_iff in Hx. destruct Hx as [s [<- _]].
    destruct y as [b' s']. apply in_prod_iff in Hy. destruct Hy as [Hb' _].
    left. unfold trade_of, trade_buy. simpl.
    rewrite Forall_forall in Hall. now apply Hall.
Qed.

Lemma candidates_enum_sorted (cfg : Config) (day_data : list PricePoint) :
  StronglySorted row_before day_data ->
  StronglySorted enum_before (candidates cfg day_data).
Proof.
  intro H. unfold candidates. rewrite candidates_outer.
  apply StronglySorted_map. apply StronglySorted_filter.
  now apply list_prod_enum_sorted.
Qed.

Lemma ts_mem_used_of (t : Timestamp) (g : list Trade) :
  ts_mem t (used_of g) =
  existsb (fun a => ts_eqb t (trade_buy a) || ts_eqb t (trade_sell a)) g.
Proof.
  unfold ts_mem, used_of. induction g as [|a g IH]; simpl; [reflexivity|].
  rewrite IH. now rewrite orb_assoc.
Qed.

Lemma clashes_used_of (c : Trade) (g : list Trade) :
  negb (ts_mem (trade_buy c) (used_of g))
  && negb (ts_mem (trade_sell c) (used_of g)) = negb (clashes c g).
Proof.
  rewrite !ts_mem_used_of. unfold clashes.
  induction g as [|a g IH]; simpl; [reflexivity|].
  rewrite !negb_orb in *. rewrite <- IH.
  destruct (ts_eqb (trade_buy c) (trade_buy a)),
           (ts_eqb (trade_buy c) (trade_sell a)),
           (ts_eqb (trade_sell c) (trade_buy a)),
           (ts_eqb (trade_sell c) (trade_sell a)); simpl;
    rewrite ?andb_false_r; try reflexivity;
    destruct (existsb _ g); reflexivity.
Qed.

Lemma used_of_app (g : list Trade) (c : Trade) :
  used_of (g ++ [c]) = used_of g ++ [trade_buy c; trade_sell c].
Proof. unfold used_of. rewrite flat_map_app. simpl. reflexivity. Qed.

Lemma group_loop_fold (l g : list Trade) :
  group_loop l g (used_of g) = fold_left greedy_step l g.
Proof.
  revert g. induction l as [|[[b s] p] l IH]; intro g; simpl; [reflexivity|].
  pose proof (clashes_used_of (b, s, p) g) as E.
  unfold trade_buy, trade_sell in E. simpl in E. rewrite E.
  unfold greedy_step at 2.
  destruct (clashes (b, s, p) g); simpl.
  - apply IH.
  - rewrite <- IH, used_of_app. reflexivity.
Qed.

Lemma greedy_fold (l : list Trade) : greedy l = fold_left greedy_step l [].
Proof. unfold greedy. exact (group_loop_fold l []). Qed.

Lemma greedy_snoc (pre : list Trade) (c : Trade) :
  greedy (pre ++ [c]) =
  greedy pre ++ (if clashes c (greedy pre) then [] else [c]).
Proof.
  rewrite !greedy_fold, fold_left_app. simpl. unfold greedy_step at 1.
  destruct (clashes c (fold_left greedy_step pre [])).
  - now rewrite app_nil_r.
  - reflexivity.
Qed.

Lemma fold_greedy_extends (l g : list Trade) :
  exists more, fold_left greedy_step l g = g ++ more.
Proof.
  revert g. induction l as [|c l IH]; intro g; simpl.
  - exists []. now rewrite app_nil_r.
  - destruct (IH (greedy_step g c)) as [more Hm]. rewrite Hm.
    unfold greedy_step. destruct (clashes c g).
    + now exists more.
    + exists (c :: more). now rewrite <- app_assoc.
Qed.

Lemma greedy_prefix (pre post : list Trade) :
  exists more, greedy (pre ++ post) = greedy pre ++ more.
Proof.
  rewrite !greedy_fold, fold_left_app. apply fold_greedy_extends.
Qed.

Lemma fold_greedy_sorted (R : Trade -> Trade -> Prop) (l g : list Trade) :
  StronglySorted R (g ++ l) -> StronglySorted R (fold_left greedy_step l g).
Proof.
  revert g. induction l as [|c l IH]; intro g; simpl.
  - now rewrite app_nil_r.
  - intro H. apply IH. unfold greedy_step. destruct (clashes c g).
    + now apply StronglySorted_drop_middle in H.
    + now rewrite <- app_assoc.
Qed.

Lemma greedy_sorted (R : Trade -> Trade -> Prop) (l : list Trade) :
  StronglySorted R l -> StronglySorted R (greedy l).
Proof. intro H. rewrite greedy_fold. now apply fold_greedy_sorted. Qed.

Lemma filter_sorted_relative (A : Type) (R : A -> A -> Prop) (f : A -> bool)
  (l : list A) :
  StronglySorted R (filter f l) <->
  StronglySorted (fun a b => f a = true -> f b = true -> R a b) l.
Proof.
  induction l as [|a l IH]; simpl.
  - split; constructor.
  - destruct (f a) eqn:E; split; intro H.
    + inversion H as [|a' l' Hs Hall]; subst.
      constructor; [now apply IH|].
      apply Forall_forall. intros y Hy _ Hfy.
      rewrite Forall_forall in Hall. apply Hall. now apply filter_In.
    + inversion H as [|a' l' Hs Hall]; subst.
      constructor; [now apply IH|].
      apply Forall_forall. intros y Hy. apply filter_In in Hy.
      destruct Hy as [Hy Hfy]. rewrite Forall_forall in Hall.
      now apply Hall.
    + constructor; [now apply IH|].
      apply Forall_forall. intros y _ Hfa. congruence.
    + inversion H; subst. now apply IH.
Qed.

(** C3: the selector sorts the candidates by unit profit, descending
    (the sorted list is a rearrangement of the candidates); candidates of
    equal unit profit keep their enumeration order, which for a day whose
    rows are in ascending timestamp order is buy timestamp ascending,
    then sell timestamp ascending; the result is the greedy pass over the
    sorted list, in which each candidate is accepted exactly when neither
    of its timestamps is used by a candidate accepted before it, and an
    accepted candidate is never withdrawn; the result is again in
    descending order with ties in enumeration order; the same day data
    gives the same list. *)
Theorem find_best_trade_sorted_greedy (cfg : Config)
  (day_data : list PricePoint) :
  StronglySorted row_before day_data ->
  let cands := candidates cfg day_data in
  let sorted := sort_desc cands in
  Permutation sorted cands
  /\ StronglySorted profit_ge sorted
  /\ (forall q, with_profit q sorted = with_profit q cands)
  /\ (forall q, StronglySorted enum_before (with_profit q sorted))
  /\ find_best_trade cfg day_data = greedy sorted
  /\ (forall pre c post,
        sorted = pre ++ c :: post ->
        greedy (pre ++ [c]) =
          greedy pre ++ (if clashes c (greedy pre) then [] else [c])
        /\ exists more, greedy sorted = greedy (pre ++ [c]) ++ more)
  /\ StronglySorted profit_ge (find_best_trade cfg day_data)
  /\ (forall q,
        StronglySorted enum_before
          (with_profit q (find_best_trade cfg day_data)))
  /\ (forall day_data',
        day_data' = day_data ->
        find_best_trade cfg day_data' = find_best_trade cfg day_data).
Proof.
  intros Hday cands sorted.
  assert (Hties : forall q, StronglySorted enum_before (with_profit q sorted)).
  { intro q. unfold sorted. rewrite sort_desc_stable.
    apply StronglySorted_filter. now apply candidates_enum_sorted. }
  split; [apply sort_desc_perm|].
  split; [apply sort_desc_sorted|].
  split; [intro q; apply sort_desc_stable|].
  split; [exact Hties|].
  split; [reflexivity|].
  split; [|split; [|split]].
  - intros pre c post E. split; [apply greedy_snoc|].
    rewrite E. replace (pre ++ c :: post) with ((pre ++ [c]) ++ post)
      by (rewrite <- app_assoc; reflexivity).
    apply greedy_prefix.
  - apply greedy_sorted. apply sort_desc_sorted.
  - intro q. unfold with_profit. apply filter_sorted_relative.
    apply greedy_sorted. apply filter_sorted_relative. apply Hties.
  - intros day_data' ->. reflexivity.
Qed.

(** ** The driver loop *)

Lemma run_trades_app (cfg : Config) (frame : list PricePoint)
  (acc : State * option Timestamp) (l1 l2 : list Trade) :
  run_trades cfg frame acc (l1 ++ l2) =
  (acc' <- run_trades cfg frame acc l1 ;; run_trades cfg frame acc' l2).
Proof.
  revert acc. induction l1 as [|tr l1 IH]; intro acc; simpl; [reflexivity|].
  destruct (run_trade cfg frame acc tr) as [acc1|]; simpl;
    [apply IH|reflexivity].
Qed.

Lemma run_days_flat (cfg : Config) (frame : list PricePoint)
  (acc : State * option Timestamp) (days : list (list PricePoint)) :
  run_days cfg frame acc days = run_trades cfg frame acc (considered cfg days).
Proof.
  revert acc. unfold considered.
  induction days as [|d days IH]; intro acc; simpl; [reflexivity|].
  rewrite run_trades_app.
  destruct (run_trades cfg frame acc (find_best_trade cfg d)) as [acc1|];
    simpl; [apply IH|reflexivity].
Qed.

Lemma run_trade_last (cfg : Config) (frame : list PricePoint)
  (acc acc' : State * option Timestamp) (tr : Trade) :
  run_trade cfg frame acc tr = Some acc' -> snd acc' = Some (trade_sell tr).
Proof.
  destruct acc as [self last], tr as [[b s] p]. unfold run_trade.
  destruct (if may_execute last b then execute_trade cfg frame self b s p
            else Some self) as [self'|]; simpl; [|discriminate].
  intro H. inversion H. reflexivity.
Qed.

Lemma run_trades_last (cfg : Config) (frame : list PricePoint)
  (pre : list Trade) (acc acc' : State * option Timestamp) :
  run_trades cfg frame acc pre = Some acc' ->
  snd acc' = match previous_sell pre with
             | None => snd acc
             | Some t => Some t
             end.
Proof.
  unfold previous_sell.
  destruct (rev pre) as [|prev rpre] eqn:E.
  - destruct pre as [|x pre]; [|apply (f_equal (@length _)) in E;
      rewrite length_rev in E; discriminate].
    simpl. intro H. now inversion H.
  - assert (Hpre : pre = rev rpre ++ [prev]).
    { rewrite <- (rev_involutive pre), E. reflexivity. }
    rewrite Hpre, run_trades_app.
    destruct (run_trades cfg frame acc (rev rpre)) as [acc1|]; simpl;
      [|discriminate].
    destruct (run_trade cfg frame acc1 prev) as [acc2|] eqn:E2; simpl;
      [|discriminate].
    intro H. inversion H; subst. now apply run_trade_last in E2.
Qed.

Lemma may_execute_previous (pre : list Trade) (tr : Trade) :
  may_execute (previous_sell pre) (trade_buy tr) = true <->
  pre = []
  \/ exists pre' prev,
       pre = pre' ++ [prev]
       /\ ts_gtb (trade_buy tr) (trade_sell prev) = true.
Proof.
  unfold previous_sell.
  destruct (rev pre) as [|prev rpre] eqn:E.
  - assert (pre = []) as ->.
    { destruct pre as [|x pre]; [reflexivity|].
      apply (f_equal (@length _)) in E. rewrite length_rev in E.
      discriminate. }
    simpl. split; [now left|reflexivity].
  - assert (Hpre : pre = rev rpre ++ [prev]).
    { rewrite <- (rev_involutive pre), E. reflexivity. }
    simpl. split.
    + intro H. right. now exists (rev rpre), prev.
    + intros [Hnil|(pre' & prev' & Hp & Hgt)].
      * rewrite Hnil in Hpre. now destruct (rev rpre).
      * rewrite Hp in Hpre. apply app_inj_tail in Hpre.
        destruct Hpre as [_ ->]. exact Hgt.
Qed.

(** The driver loop as it is written: a considered pair is executed
    exactly when it is the first pair considered in the run or its buy
    timestamp is strictly after the sell timestamp of the pair
    considered immediately before it, executed or not; a pair failing
    the test leaves the state and the ledger untouched, and its sell
    timestamp becomes the reference for the next pair. *)
Lemma run_executes_after_previous_considered (cfg : Config)
  (days : list (list PricePoint)) (pre : list Trade) (tr : Trade)
  (post : list Trade) (acc : State * option Timestamp) :
  considered cfg days = pre ++ tr :: post ->
  run_trades cfg (concat days) (init_state, None) pre = Some acc ->
  snd acc = previous_sell pre
  /\ (may_execute (previous_sell pre) (trade_buy tr) = true <->
      pre = []
      \/ exists pre' prev,
           pre = pre' ++ [prev]
           /\ ts_gtb (trade_buy tr) (trade_sell prev) = true)
  /\ run_trades cfg (concat days) (init_state, None) (pre ++ [tr]) =
       (if may_execute (previous_sell pre) (trade_buy tr)
        then self' <- execute_trade cfg (concat days) (fst acc)
                        (trade_buy tr) (trade_sell tr) (trade_profit tr) ;;
             Some (self', Some (trade_sell tr))
        else Some (fst acc, Some (trade_sell tr)))
  /\ run cfg days =
       (acc1 <- run_trades cfg (concat days) (init_state, None)
                  (pre ++ [tr]) ;;
        acc2 <- run_trades cfg (concat days) acc1 post ;;
        Some (fst acc2)).
Proof.
  intros Hcons Hpre.
  assert (Hlast : snd acc = previous_sell pre).
  { rewrite (run_trades_last cfg (concat days) pre _ _ Hpre). simpl.
    now destruct (previous_sell pre). }
  split; [exact Hlast|]. split; [apply may_execute_previous|]. split.
  - rewrite run_trades_app, Hpre. simpl.
    destruct acc as [self last], tr as [[b s] p]. simpl in *.
    unfold trade_buy, trade_sell, trade_profit. simpl. subst last.
    destruct (may_execute (previous_sell pre) b); simpl.
    + destruct (execute_trade cfg (concat days) self b s p); reflexivity.
    + reflexivity.
  - unfold run. rewrite run_days_flat, Hcons.
    replace (pre ++ tr :: post) with ((pre ++ [tr]) ++ post)
      by (rewrite <- app_assoc; reflexivity).
    rewrite (run_trades_app cfg (concat days) _ (pre ++ [tr]) post).
    destruct (run_trades cfg (concat days) (init_state, None) (pre ++ [tr]));
      reflexivity.
Qed.

(** ** Invariants of the engine *)

Lemma lots_total_app (l : list Lot) (lot : Lot) :
  lots_total (l ++ [lot]) == lots_total l + lot_amount lot.
Proof.
  induction l as [|x l IH]; simpl.
  - ring.
  - rewrite IH. ring.
Qed.

Lemma lots_total_nonneg (cfg : Config) (l : list Lot) :
  Forall (lot_ok cfg) l -> 0 <= lots_total l.
Proof.
  induction 1 as [|x l [Hx _] _ IH]; simpl; [apply Qle_refl|lra].
Qed.

Lemma engine_inv_init (cfg : Config) :
  valid_config cfg -> engine_inv cfg init_state.
Proof.
  intros (Hcap & _). constructor; simpl.
  - reflexivity.
  - constructor.
  - apply Qle_refl.
  - now apply Qlt_le_weak.
  - constructor.
Qed.

Lemma valid_capacity_nonzero (cfg : Config) :
  valid_config cfg -> ~ capacity cfg == 0.
Proof.
  intros (Hcap & _) E. rewrite E in Hcap. now apply Qlt_irrefl in Hcap.
Qed.

(** The buy step of [execute_trade] keeps the invariant. *)
Lemma engine_inv_buy (cfg : Config) (self self1 : State)
  (timestamp : Timestamp) (price : Q) :
  valid_config cfg -> engine_inv cfg self ->
  buy_energy cfg self timestamp
    (pymin (speed cfg) (capacity cfg - balance self)) price = Some self1 ->
  engine_inv cfg self1.
Proof.
  intros Hv [Ht Hl Hlo Hup Hr] Hbuy.
  rewrite (buy_energy_some cfg self timestamp _ price
             (valid_capacity_nonzero cfg Hv)) in Hbuy.
  inversion Hbuy; subst; clear Hbuy.
  destruct Hv as (Hcap & Hsp & Hsc & _).
  set (amount := pymin (speed cfg) (capacity cfg - balance self)).
  assert (Ha0 : 0 <= amount).
  { apply pymin_glb; [now apply Qlt_le_weak|lra]. }
  assert (Ha1 : amount <= speed cfg) by apply pymin_le_l.
  assert (Ha2 : amount <= capacity cfg - balance self) by apply pymin_le_r.
  constructor; simpl.
  - rewrite lots_total_app. simpl. fold amount. rewrite Ht. reflexivity.
  - apply Forall_app. split; [assumption|].
    constructor; [|constructor]. split; assumption.
  - fold amount. lra.
  - fold amount. lra.
  - apply Forall_app. split; [assumption|].
    constructor; [|constructor]. unfold row_ok. simpl. fold amount.
    split; lra.
Qed.

Lemma pymin3_head_lot (cfg : Config) (self : State) (lot : Lot)
  (rest : list Lot) :
  engine_inv cfg self -> buy_log self = lot :: rest ->
  pymin3 (speed cfg) (balance self) (lot_amount lot) == lot_amount lot.
Proof.
  intros [Ht Hl _ _ _] Hlog. rewrite Hlog in Ht, Hl.
  inversion Hl as [|x l [Hx0 Hx1] Hrest]; subst.
  pose proof (lots_total_nonneg cfg rest Hrest) as Hr.
  simpl in Ht.
  rewrite pymin3_Qmin.
  assert (Hb : lot_amount lot <= balance self) by lra.
  destruct (Q.min_spec (speed cfg) (balance self)) as [[H1 E1]|[H1 E1]];
    destruct (Q.min_spec (Qmin (speed cfg) (balance self)) (lot_amount lot))
      as [[H2 E2]|[H2 E2]];
    revert H2 E2 E1;
    generalize (Qmin (Qmin (speed cfg) (balance self)) (lot_amount lot));
    generalize (Qmin (speed cfg) (balance self)); intros; lra.
Qed.

(** The sell step keeps the invariant. *)
Lemma engine_inv_sell (cfg : Config) (self : State) (timestamp : Timestamp)
  (price : Q) :
  valid_config cfg -> engine_inv cfg self ->
  engine_inv cfg (sell_energy cfg self timestamp price).
Proof.
  intros Hv Hinv.
  destruct (buy_log self) as [|lot rest] eqn:Hlog.
  - unfold sell_energy. rewrite Hlog. exact Hinv.
  - destruct (Qgtb (balance self) 0) eqn:Hpos.
    + apply Qgtb_true in Hpos.
      rewrite (sell_energy_head cfg self timestamp price lot rest Hlog Hpos).
      pose proof (pymin3_head_lot cfg self lot rest Hinv Hlog) as Hm.
      destruct Hinv as [Ht Hl Hlo Hup Hr].
      rewrite Hlog in Ht, Hl. simpl in Ht.
      inversion Hl as [|x l [Hx0 Hx1] Hrest]; subst.
      pose proof (lots_total_nonneg cfg rest Hrest) as Hr0.
      unfold sell_lot. constructor; simpl.
      * rewrite Hlog, list_remove_head, Hm. lra.
      * rewrite Hlog, list_remove_head. assumption.
      * rewrite Hm. lra.
      * rewrite Hm. lra.
      * apply Forall_app. split; [assumption|].
        constructor; [|constructor]. unfold row_ok. simpl.
        rewrite Hm. split; lra.
    + unfold sell_energy. now rewrite sell_loop_empty_battery.
Qed.

Lemma engine_inv_execute_trade (cfg : Config) (frame : list PricePoint)
  (self self' : State) (buy_time sell_time : Timestamp) (amount : Q) :
  valid_config cfg -> engine_inv cfg self ->
  execute_trade cfg frame self buy_time sell_time amount = Some self' ->
  engine_inv cfg self'.
Proof.
  intros Hv Hinv. unfold execute_trade.
  destruct (loc_price frame buy_time) as [bp|]; simpl; [|discriminate].
  destruct (loc_price frame sell_time) as [sp|]; simpl; [|discriminate].
  destruct (buy_energy cfg self buy_time _ bp) as [self1|] eqn:Hbuy; simpl;
    [|discriminate].
  intro H. inversion H; subst.
  apply engine_inv_sell; [assumption|].
  now apply (engine_inv_buy cfg self self1 buy_time bp).
Qed.

Lemma engine_inv_run_trade (cfg : Config) (frame : list PricePoint)
  (acc acc' : State * option Timestamp) (tr : Trade) :
  valid_config cfg -> engine_inv cfg (fst acc) ->
  run_trade cfg frame acc tr = Some acc' -> engine_inv cfg (fst acc').
Proof.
  intros Hv Hinv. destruct acc as [self last], tr as [[b s] p].
  unfold run_trade. destruct (may_execute last b).
  - destruct (execute_trade cfg frame self b s p) as [self'|] eqn:E; simpl;
      [|discriminate].
    intro H. inversion H; subst. simpl.
    now apply (engine_inv_execute_trade cfg frame self self' b s p).
  - simpl. intro H. inversion H; subst. exact Hinv.
Qed.

Lemma engine_inv_run_trades (cfg : Config) (frame : list PricePoint)
  (trades : list Trade) (acc acc' : State * option Timestamp) :
  valid_config cfg -> engine_inv cfg (fst acc) ->
  run_trades cfg frame acc trades = Some acc' -> engine_inv cfg (fst acc').
Proof.
  intro Hv. revert acc. induction trades as [|tr trades IH]; intros acc Hinv.
  - simpl. intro H. now inversion H; subst.
  - simpl. destruct (run_trade cfg frame acc tr) as [acc1|] eqn:E; simpl;
      [|discriminate].
    apply IH. now apply (engine_inv_run_trade cfg frame acc acc1 tr).
Qed.

(** ** The run terminates normally on a valid configuration *)

Lemma loc_price_in (frame : list PricePoint) (t : Timestamp) :
  In t (map fst frame) -> exists p, loc_price frame t = Some p.
Proof.
  induction frame as [|[t' p] frame IH]; simpl; [contradiction|].
  intros [->|Hin].
  - exists p. now rewrite ts_eqb_refl.
  - destruct (ts_eqb t' t); [now exists p|now apply IH].
Qed.

Lemma fold_greedy_in (l g : list Trade) (x : Trade) :
  In x (fold_left greedy_step l g) -> In x g \/ In x l.
Proof.
  revert g. induction l as [|c l IH]; intro g; simpl; [now left|].
  intro H. apply IH in H. destruct H as [H|H]; [|now right; right].
  unfold greedy_step in H. destruct (clashes c g); [now left|].
  apply in_app_or in H. destruct H as [H|[->|[]]]; [now left|now right; left].
Qed.

Lemma greedy_in (l : list Trade) (x : Trade) : In x (greedy l) -> In x l.
Proof.
  rewrite greedy_fold. intro H. apply fold_greedy_in in H.
  now destruct H as [[]|H].
Qed.

Lemma find_best_trade_times (cfg : Config) (day_data : list PricePoint)
  (tr : Trade) :
  In tr (find_best_trade cfg day_data) ->
  In (trade_buy tr) (map fst day_data) /\ In (trade_sell tr) (map fst day_data).
Proof.
  intro H. apply greedy_in in H.
  apply (Permutation_in _ (sort_desc_perm _)) in H.
  destruct tr as [[b s] p].
  apply candidates_in in H.
  destruct H as (pb & ps & Hb & Hs & _).
  split; unfold trade_buy, trade_sell; simpl.
  - apply in_map_iff. now exists (b, pb).
  - apply in_map_iff. now exists (s, ps).
Qed.

Lemma considered_times (cfg : Config) (days : list (list PricePoint))
  (tr : Trade) :
  In tr (considered cfg days) ->
  In (trade_buy tr) (map fst (concat days))
  /\ In (trade_sell tr) (map fst (concat days)).
Proof.
  unfold considered. intro H. apply in_concat in H.
  destruct H as (l & Hl & Hin). apply in_map_iff in Hl.
  destruct Hl as (d & <- & Hd). apply find_best_trade_times in Hin.
  assert (Hsub : forall t, In t (map fst d) -> In t (map fst (concat days))).
  { intros t Ht. apply in_map_iff in Ht. destruct Ht as (r & <- & Hr).
    apply in_map. apply in_concat. now exists d. }
  destruct Hin as [Hb Hs]. split; now apply Hsub.
Qed.

Lemma execute_trade_total (cfg : Config) (frame : list PricePoint)
  (self : State) (buy_time sell_time : Timestamp) (amount : Q) :
  valid_config cfg ->
  In buy_time (map fst frame) -> In sell_time (map fst frame) ->
  exists self', execute_trade cfg frame self buy_time sell_time amount
                = Some self'.
Proof.
  intros Hv Hb Hs. unfold execute_trade.
  destruct (loc_price_in frame buy_time Hb) as [bp ->].
  destruct (loc_price_in frame sell_time Hs) as [sp ->]. simpl.
  rewrite (buy_energy_some cfg self buy_time _ bp
             (valid_capacity_nonzero cfg Hv)). simpl.
  eexists. reflexivity.
Qed.

Lemma run_trades_total (cfg : Config) (frame : list PricePoint)
  (trades : list Trade) (acc : State * option Timestamp) :
  valid_config cfg ->
  (forall tr, In tr trades ->
     In (trade_buy tr) (map fst frame) /\ In (trade_sell tr) (map fst frame)) ->
  exists acc', run_trades cfg frame acc trades = Some acc'.
Proof.
  intro Hv. revert acc. induction trades as [|tr trades IH]; intros acc Hin.
  - simpl. now exists acc.
  - simpl. destruct (Hin tr (or_introl eq_refl)) as [Hb Hs].
    destruct acc as [self last], tr as [[b s] p].
    unfold trade_buy, trade_sell in Hb, Hs. simpl in Hb, Hs.
    unfold run_trade.
    destruct (may_execute last b).
    + destruct (execute_trade_total cfg frame self b s p Hv Hb Hs)
        as [self' ->]. simpl.
      apply IH. intros tr' H'. apply Hin. now right.
    + simpl. apply IH. intros tr' H'. apply Hin. now right.
Qed.

Lemma run_total (cfg : Config) (days : list (list PricePoint)) :
  valid_config cfg -> exists final, run cfg days = Some final.
Proof.
  intro Hv. unfold run. rewrite run_days_flat.
  destruct (run_trades_total cfg (concat days) (considered cfg days)
              (init_state, None) Hv (considered_times cfg days))
    as [acc ->].
  simpl. now exists (fst acc).
Qed.

(** C6: with a valid configuration the run completes on every price
    series; it starts from balance 0 and every row of the ledger, that
    is, the state after every recorded action, has a balance between 0
    and the capacity, as has the final state. *)
Theorem run_balance_within_capacity (cfg : Config)
  (days : list (list PricePoint)) :
  valid_config cfg ->
  balance init_state = 0
  /\ exists final,
       run cfg days = Some final
       /\ Forall (fun row => 0 <= Transaction.balance row
                             /\ Transaction.balance row <= capacity cfg)
            (transactions final)
       /\ 0 <= balance final /\ balance final <= capacity cfg.
Proof.
  intro Hv. split; [reflexivity|].
  destruct (run_total cfg days Hv) as [final Hrun].
  exists final. split; [exact Hrun|].
  unfold run in Hrun. rewrite run_days_flat in Hrun.
  destruct (run_trades cfg (concat days) (init_state, None)
              (considered cfg days)) as [acc|] eqn:E; simpl in Hrun;
    [|discriminate].
  inversion Hrun; subst.
  pose proof (engine_inv_run_trades cfg (concat days) (considered cfg days)
                (init_state, None) acc Hv (engine_inv_init cfg Hv) E) as Hinv.
  destruct Hinv as [_ _ Hlo Hup Hr]. repeat split; assumption.
Qed.

Lemma run_point_inv (cfg : Config) (days : list (list PricePoint))
  (self : State) :
  valid_config cfg -> run_point cfg days self -> engine_inv cfg self.
Proof.
  intros Hv Hp. destruct Hp as [pre post acc _ Hrun
                               |pre post tr acc bp self1 _ Hrun _ _ Hbuy].
  - exact (engine_inv_run_trades cfg (concat days) pre (init_state, None) acc
             Hv (engine_inv_init cfg Hv) Hrun).
  - apply (engine_inv_buy cfg (fst acc) self1 (trade_buy tr) bp Hv);
      [|exact Hbuy].
    exact (engine_inv_run_trades cfg (concat days) pre (init_state, None) acc
             Hv (engine_inv_init cfg Hv) Hrun).
Qed.

(** C7: with a valid configuration, at every point of a run (before and
    after each buy and each sell) the amounts of the pending lots sum to
    the balance; at such a point the sell step takes the whole oldest
    lot, [min(speed, balance, lot_amount)] being the lot's amount, so
    the equality holds again after it. *)
Theorem lots_total_eq_balance (cfg : Config) (days : list (list PricePoint))
  (self : State) :
  valid_config cfg ->
  run_point cfg days self ->
  lots_total (buy_log self) == balance self
  /\ (forall lot rest,
        buy_log self = lot :: rest ->
        pymin3 (speed cfg) (balance self) (lot_amount lot) == lot_amount lot)
  /\ (forall timestamp price,
        lots_total (buy_log (sell_energy cfg self timestamp price))
        == balance (sell_energy cfg self timestamp price)).
Proof.
  intros Hv Hp. pose proof (run_point_inv cfg days self Hv Hp) as Hinv.
  split; [apply (inv_total cfg self Hinv)|]. split.
  - intros lot rest Hlog. now apply (pymin3_head_lot cfg self lot rest).
  - intros timestamp price.
    apply (inv_total cfg _ (engine_inv_sell cfg self timestamp price Hv Hinv)).
Qed.

(** ** Construction *)

(** C10 (as amended): construction never inspects the configuration.  It
    fails only when the price file cannot be read; with a readable file
    it succeeds for every capacity, speed and efficiency, stores the
    parameters as given and creates the initial state. *)
Theorem construction_stores_configuration (frame : list PricePoint)
  (capacity speed efficiency : Q) (day_ahead_time : Z)
  (profit_min tax_fixed_returnable : Q) :
  BatteryTrading_init (Some frame) capacity speed efficiency day_ahead_time
    profit_min tax_fixed_returnable
  = Some (mkBatteryTrading
            (mkConfig capacity speed efficiency day_ahead_time profit_min
               tax_fixed_returnable)
            (drop_duplicates frame) init_state)
  /\ BatteryTrading_init None capacity speed efficiency day_ahead_time
       profit_min tax_fixed_returnable = None.
Proof. split; reflexivity. Qed.

(** ** Concrete runs *)

Lemma cfgA_valid : valid_config cfgA.
Proof. repeat split; qcompute. Qed.

Lemma cfg_main_valid : valid_config cfg_main.
Proof. repeat split; qcompute. Qed.

Lemma dayX_sorted : StronglySorted row_before dayX.
Proof. repeat (constructor; try reflexivity). Qed.

Example selector_dayX :
  find_best_trade cfgA dayX = [pairX1; pairX2; pairX3].
Proof. vm_compute. reflexivity. Qed.

(** Scenario A: one buy of 5 at 10h, one sell of 5 at 11h, profit 2,
    final balance 0. *)
Example scenario_A :
  exists final,
    run cfgA [dayA] = Some final
    /\ map (fun r => (Transaction.date r, Transaction.action r,
                      Qred (Transaction.amount_kwh r),
                      Qred (Transaction.profit r),
                      Qred (Transaction.balance r)))
         (transactions final)
       = [(at_hour 10, buy, 5, 0, 0 + 5); (at_hour 11, sell, 5, 2, 0)]
    /\ buy_log final = [].
Proof. eexists. split; [reflexivity|]. split; vm_compute; reflexivity. Qed.

(** Scenario C: unit profit 0.065; the pair is kept when the threshold
    is 0.065 and dropped when it is 0.066. *)
Example scenario_C :
  profit_kwh (mkConfig 1 1 (1 # 2) 16 (65 # 1000) (17 # 100)) (1 # 10) (1 # 2)
    == 65 # 1000
  /\ length (candidates (mkConfig 1 1 (1 # 2) 16 (65 # 1000) (17 # 100)) dayA)
     = 1%nat
  /\ candidates (mkConfig 1 1 (1 # 2) 16 (66 # 1000) (17 # 100)) dayA = [].
Proof. repeat split; vm_compute; reflexivity. Qed.

(** On [dayX] the driver executes the pairs bought at 10h and at 9h; the
    rule of the specification would execute the first pair only. *)
Example run_dayX :
  exists final,
    run cfgA [dayX] = Some final
    /\ bought_at (transactions final) = [at_hour 10; at_hour 9]
    /\ map trade_buy (executed_by_stated_rule None (considered cfgA [dayX]))
       = [at_hour 10].
Proof. eexists. split; [reflexivity|]. split; vm_compute; reflexivity. Qed.

(** The pairs executed by the driver are not those whose buy timestamp
    follows the sell timestamp of the most recently executed pair: on
    [dayX] the pair 5h -> 8h is dropped, its sell timestamp is recorded
    all the same, and the pair 9h -> 12h is then executed although the
    last executed pair sold at 20h. *)
Lemma run_differs_from_stated_rule :
  ~ (forall cfg days final,
       run cfg days = Some final ->
       bought_at (transactions final) =
       map trade_buy (executed_by_stated_rule None (considered cfg days))).
Proof.
  intro H. destruct run_dayX as (final & Hrun & Hcode & Hrule).
  specialize (H cfgA [dayX] final Hrun).
  rewrite Hcode, Hrule in H. discriminate H.
Qed.

(** C4, the code at the failing input: on [dayX] the selector returns
    10h -> 20h, 5h -> 8h and 9h -> 12h.  The driver executes the first
    pair, drops the second, and executes the third although the pair
    executed most recently sold at 20h: the ledger reads buy 10h, sell
    20h, buy 9h, sell 12h.  Under the rule of the specification only the
    first pair is executed. *)
Theorem run_dayX_buys_before_last_sell :
  find_best_trade cfgA dayX = [pairX1; pairX2; pairX3]
  /\ (exists final,
        run cfgA [dayX] = Some final
        /\ ledger_keys (transactions final)
           = [(at_hour 10, buy); (at_hour 20, sell);
              (at_hour 9, buy); (at_hour 12, sell)])
  /\ executed_from None (considered cfgA [dayX]) = [pairX1; pairX3]
  /\ executed_by_stated_rule None (considered cfgA [dayX]) = [pairX1].
Proof.
  split; [vm_compute; reflexivity|]. split.
  - eexists. split; [reflexivity|]. vm_compute. reflexivity.
  - split; vm_compute; reflexivity.
Qed.

(** C10, counterexample: a zero capacity, a negative speed and an
    efficiency of 2 are accepted by the constructor. *)
Lemma construction_accepts_config_error :
  ~ (forall csv capacity speed efficiency day_ahead_time profit_min tax,
       config_error capacity speed efficiency ->
       BatteryTrading_init csv capacity speed efficiency day_ahead_time
         profit_min tax = None).
Proof.
  intro H.
  assert (E : config_error 0 (-1) 2) by (left; qcompute).
  specialize (H (Some dayA) 0 (-1) 2 16%Z (3 # 100) (17 # 100) E).
  discriminate H.
Qed.

(** ** The theorems at concrete inputs *)

Lemma sell_energy_matches_oldest_lot_witness :
  buy_log stateA_bought = [(at_hour 10, 5, 1 # 10)]
  /\ 0 < balance stateA_bought
  /\ buy_log (sell_energy cfgA stateA_bought (at_hour 11) (1 # 2)) = []
  /\ balance (sell_energy cfgA stateA_bought (at_hour 11) (1 # 2))
     = balance stateA_bought
       - pymin3 (speed cfgA) (balance stateA_bought) 5.
Proof.
  assert (H1 : buy_log stateA_bought = [(at_hour 10, 5, 1 # 10)])
    by reflexivity.
  assert (H2 : 0 < balance stateA_bought) by (vm_compute; reflexivity).
  destruct (sell_energy_matches_oldest_lot cfgA stateA_bought (at_hour 11)
              (1 # 2) (at_hour 10, 5, 1 # 10) [] H1 H2)
    as (_ & Hbal & _ & _ & Hlog & _).
  repeat split; assumption.
Defined.

Lemma sell_energy_noop_witness :
  (balance init_state == 0 \/ buy_log init_state = [])
  /\ sell_energy cfgA init_state (at_hour 11) (1 # 2) = init_state.
Proof.
  assert (H : balance init_state == 0 \/ buy_log init_state = [])
    by (right; reflexivity).
  split; [exact H|].
  exact (sell_energy_noop cfgA init_state (at_hour 11) (1 # 2) H).
Defined.

Lemma execute_trade_buy_step_witness :
  ~ capacity cfgA == 0
  /\ loc_price dayA (at_hour 10) = Some (1 # 10)
  /\ loc_price dayA (at_hour 11) = Some (1 # 2)
  /\ exists self1,
       buy_energy cfgA init_state (at_hour 10)
         (pymin (speed cfgA) (capacity cfgA - balance init_state)) (1 # 10)
       = Some self1
       /\ cycles self1 = (cycles init_state + 1)%Z.
Proof.
  assert (H1 : ~ capacity cfgA == 0)
    by (intro H; vm_compute in H; discriminate).
  assert (H2 : loc_price dayA (at_hour 10) = Some (1 # 10)) by reflexivity.
  assert (H3 : loc_price dayA (at_hour 11) = Some (1 # 2)) by reflexivity.
  destruct (execute_trade_buy_step cfgA dayA init_state (at_hour 10)
              (at_hour 11) (8 # 20) (1 # 10) (1 # 2) H1 H2 H3)
    as (self1 & Hbuy & _ & _ & _ & Hcycles & _).
  repeat split; try assumption.
  exists self1. split; assumption.
Defined.

Lemma monthly_profit_reset_and_growth_witness :
  buy_log stateA_bought = [(at_hour 10, 5, 1 # 10)]
  /\ 0 < balance stateA_bought
  /\ month_current (sell_energy cfgA stateA_bought (at_hour 11) (1 # 2))
     = month (at_hour 11).
Proof.
  assert (H1 : buy_log stateA_bought = [(at_hour 10, 5, 1 # 10)])
    by reflexivity.
  assert (H2 : 0 < balance stateA_bought) by (vm_compute; reflexivity).
  destruct (monthly_profit_reset_and_growth cfgA stateA_bought (at_hour 11)
              (1 # 2) (at_hour 10, 5, 1 # 10) [] H1 H2)
    as (Hmonth & _).
  repeat split; assumption.
Defined.

Lemma find_best_trade_sorted_greedy_witness :
  StronglySorted row_before dayX
  /\ StronglySorted profit_ge (find_best_trade cfgA dayX).
Proof.
  assert (H : StronglySorted row_before dayX)
    by (repeat (constructor; try reflexivity)).
  destruct (find_best_trade_sorted_greedy cfgA dayX H)
    as (_ & _ & _ & _ & _ & _ & Hout & _).
  split; assumption.
Defined.

Lemma run_balance_within_capacity_witness :
  valid_config cfg_main
  /\ exists final,
       run cfg_main [dayX] = Some final
       /\ Forall (fun row => 0 <= Transaction.balance row
                             /\ Transaction.balance row <= capacity cfg_main)
            (transactions final).
Proof.
  assert (H : valid_config cfg_main) by (repeat split; qcompute).
  destruct (run_balance_within_capacity cfg_main [dayX] H)
    as (_ & final & Hrun & Hrows & _).
  split; [exact H|]. exists final. split; assumption.
Defined.

Lemma lots_total_eq_balance_witness :
  valid_config cfgA
  /\ run_point cfgA [dayA] stateA_bought
  /\ lots_total (buy_log stateA_bought) == balance stateA_bought.
Proof.
  assert (H : valid_config cfgA) by (repeat split; qcompute).
  assert (P : run_point cfgA [dayA] stateA_bought).
  { apply (point_after_buy cfgA [dayA] [] [] (at_hour 10, at_hour 11, 8 # 20)
             (init_state, None) (1 # 10) stateA_bought); reflexivity. }
  destruct (lots_total_eq_balance cfgA [dayA] stateA_bought H P) as (Hsum & _).
  split; [exact H|]. split; [exact P|exact Hsum].
Defined.

(** * Further properties of the selector *)

Lemma in_used_of (t : Timestamp) (g : list Trade) :
  In t (used_of g) <->
  exists a, In a g /\ (t = trade_buy a \/ t = trade_sell a).
Proof.
  unfold used_of. rewrite in_flat_map. split.
  - intros (a & Ha & [H|[H|[]]]); exists a; split; auto.
  - intros (a & Ha & [H|H]); exists a; split; simpl; auto.
Qed.

Lemma clashes_true_iff (c : Trade) (g : list Trade) :
  clashes c g = true <-> exists a, In a g /\ shares_timestamp c a.
Proof.
  unfold clashes, shares_timestamp. rewrite existsb_exists.
  split; intros (a & Ha & H); exists a; (split; [exact Ha|]).
  - rewrite !orb_true_iff, !ts_eqb_eq in H. tauto.
  - rewrite !orb_true_iff, !ts_eqb_eq. tauto.
Qed.

Lemma clashes_false_fresh (c : Trade) (g : list Trade) :
  clashes c g = false ->
  ~ In (trade_buy c) (used_of g) /\ ~ In (trade_sell c) (used_of g).
Proof.
  intro H.
  assert (N : ~ exists a, In a g /\ shares_timestamp c a).
  { intro E. apply clashes_true_iff in E. congruence. }
  split; intro Hin; apply in_used_of in Hin; destruct Hin as (a & Ha & Ht);
    apply N; exists a; (split; [exact Ha|]); unfold shares_timestamp; tauto.
Qed.

Lemma clashes_extend (c : Trade) (g more : list Trade) :
  clashes c g = true -> clashes c (g ++ more) = true.
Proof.
  unfold clashes. rewrite existsb_app. intros ->. reflexivity.
Qed.

Lemma fold_greedy_nodup (l g : list Trade) :
  (forall c, In c l -> trade_buy c <> trade_sell c) ->
  NoDup (used_of g) -> NoDup (used_of (fold_left greedy_step l g)).
Proof.
  revert g. induction l as [|c l IH]; intros g Hl Hg; simpl; [exact Hg|].
  apply IH; [intros c' Hc'; apply Hl; now right|].
  unfold greedy_step. destruct (clashes c g) eqn:E; [exact Hg|].
  destruct (clashes_false_fresh c g E) as [Hb Hs].
  rewrite used_of_app. apply NoDup_app; [exact Hg| |].
  - constructor; [|constructor; [intros []|constructor]].
    intros [H|[]]. symmetry in H. revert H. apply Hl. now left.
  - intros t Ht [<-|[<-|[]]]; contradiction.
Qed.

Lemma sorted_candidate_in (cfg : Config) (day_data : list PricePoint)
  (c : Trade) :
  In c (sort_desc (candidates cfg day_data)) <->
  In c (candidates cfg day_data).
Proof.
  split; apply Permutation_in;
    [apply sort_desc_perm|symmetry; apply sort_desc_perm].
Qed.

Lemma candidate_sell_after_buy (cfg : Config) (day_data : list PricePoint)
  (c : Trade) :
  In c (candidates cfg day_data) ->
  ts_gtb (trade_sell c) (trade_buy c) = true.
Proof.
  destruct c as [[b s] p]. intro H. apply candidates_in in H.
  now destruct H as (pb & ps & _ & _ & Hgt & _).
Qed.

Lemma find_best_trade_nodup (cfg : Config) (day_data : list PricePoint) :
  NoDup (used_of (find_best_trade cfg day_data)).
Proof.
  unfold find_best_trade. fold (greedy (sort_desc (candidates cfg day_data))).
  rewrite greedy_fold. apply fold_greedy_nodup; [|constructor].
  intros c Hc E. apply sorted_candidate_in in Hc.
  apply candidate_sell_after_buy in Hc.
  rewrite E, ts_gtb_irrefl in Hc. discriminate.
Qed.

(** No timestamp occurs twice among the buy and sell timestamps of the
    tuples returned by [find_best_trade]: an hour is used by at most one
    selected pair, and as one side of it only; two tuples at different
    positions of the result never share a timestamp. *)
Theorem selector_timestamps_used_once (cfg : Config)
  (day_data : list PricePoint) :
  NoDup (flat_map (fun t => [trade_buy t; trade_sell t])
           (find_best_trade cfg day_data))
  /\ (forall l1 a l2 c l3,
        find_best_trade cfg day_data = l1 ++ a :: l2 ++ c :: l3 ->
        ~ shares_timestamp a c).
Proof.
  pose proof (find_best_trade_nodup cfg day_data) as Hnd.
  split; [exact Hnd|].
  intros l1 a l2 c l3 E Hshare. rewrite E in Hnd.
  unfold used_of in Hnd. rewrite flat_map_app in Hnd.
  apply NoDup_app_remove_l in Hnd. simpl in Hnd.
  fold (used_of (l2 ++ c :: l3)) in Hnd.
  apply NoDup_cons_iff in Hnd. destruct Hnd as [Hbuy Hnd].
  apply NoDup_cons_iff in Hnd. destruct Hnd as [Hsell _].
  assert (Hc : forall t, t = trade_buy c \/ t = trade_sell c ->
                         In t (used_of (l2 ++ c :: l3))).
  { intros t Ht. apply in_used_of. exists c. split; [|exact Ht].
    apply in_or_app. right. now left. }
  destruct Hshare as [H|[H|[H|H]]].
  - apply Hbuy. right. apply Hc. now left.
  - apply Hbuy. right. apply Hc. now right.
  - apply Hsell. apply Hc. now left.
  - apply Hsell. apply Hc. now right.
Qed.

(** Every tuple returned by [find_best_trade] is built from two rows of
    the day: its sell timestamp is strictly later than its buy
    timestamp, its third component is the unit profit of the two prices
    and that profit reaches [profit_min]. *)
Theorem selector_output_admissible (cfg : Config)
  (day_data : list PricePoint) (b s : Timestamp) (p : Q) :
  In (b, s, p) (find_best_trade cfg day_data) ->
  exists pb ps,
    In (b, pb) day_data /\ In (s, ps) day_data
    /\ ts_gtb s b = true
    /\ p = (ps + tax_fixed_returnable cfg) * efficiency cfg
           - (pb + tax_fixed_returnable cfg)
    /\ profit_min cfg <= p.
Proof.
  intro H. apply greedy_in in H. apply sorted_candidate_in in H.
  now apply candidates_in in H.
Qed.

Lemma StronglySorted_before (A : Type) (R : A -> A -> Prop)
  (l1 : list A) (x : A) (l2 : list A) (a : A) :
  StronglySorted R (l1 ++ x :: l2) -> In a l1 -> R a x.
Proof.
  induction l1 as [|y l1 IH]; simpl; intros H Hin; [contradiction|].
  inversion H as [|y' l' Hs Hall]; subst. destruct Hin as [->|Hin].
  - rewrite Forall_forall in Hall. apply Hall. apply in_or_app.
    right. now left.
  - now apply IH.
Qed.

Lemma greedy_head (c : Trade) (rest : list Trade) :
  exists more, greedy (c :: rest) = c :: more.
Proof.
  rewrite greedy_fold. simpl.
  destruct (fold_greedy_extends rest (greedy_step [] c)) as [more ->].
  exists more. reflexivity.
Qed.

(** A candidate is left out by [find_best_trade] only in favour of a
    selected tuple that shares one of its timestamps and whose unit
    profit is at least as large: the selection cannot be extended by any
    candidate. *)
Theorem selector_rejects_only_clashing (cfg : Config)
  (day_data : list PricePoint) (c : Trade) :
  In c (candidates cfg day_data) ->
  In c (find_best_trade cfg day_data)
  \/ exists a,
       In a (find_best_trade cfg day_data)
       /\ shares_timestamp c a
       /\ trade_profit c <= trade_profit a.
Proof.
  intro Hc. apply sorted_candidate_in in Hc.
  pose proof (sort_desc_sorted (candidates cfg day_data)) as Hsorted.
  unfold find_best_trade. fold (greedy (sort_desc (candidates cfg day_data))).
  destruct (in_split _ _ Hc) as (pre & post & E). rewrite E in *.
  replace (pre ++ c :: post) with ((pre ++ [c]) ++ post)
    by (rewrite <- app_assoc; reflexivity).
  destruct (greedy_prefix (pre ++ [c]) post) as [more ->].
  rewrite greedy_snoc.
  destruct (clashes c (greedy pre)) eqn:Hclash.
  - right. apply clashes_true_iff in Hclash.
    destruct Hclash as (a & Ha & Hshare). exists a. split; [|split].
    + apply in_or_app. left. apply in_or_app. now left.
    + exact Hshare.
    + apply greedy_in in Ha.
      exact (StronglySorted_before Trade profit_ge pre c post a Hsorted Ha).
  - left. apply in_or_app. left. apply in_or_app. right. now left.
Qed.

(** [find_best_trade] returns the empty list exactly when the day has no
    candidate; otherwise its first tuple is a candidate of the largest
    unit profit of the day. *)
Theorem selector_best_first (cfg : Config) (day_data : list PricePoint) :
  (find_best_trade cfg day_data = [] <-> candidates cfg day_data = [])
  /\ (forall best more,
        find_best_trade cfg day_data = best :: more ->
        In best (candidates cfg day_data)
        /\ forall c, In c (candidates cfg day_data) ->
                     trade_profit c <= trade_profit best).
Proof.
  unfold find_best_trade. fold (greedy (sort_desc (candidates cfg day_data))).
  pose proof (sort_desc_sorted (candidates cfg day_data)) as Hsorted.
  pose proof (sort_desc_perm (candidates cfg day_data)) as Hperm.
  destruct (sort_desc (candidates cfg day_data)) as [|top rest] eqn:E.
  - apply Permutation_nil in Hperm. rewrite Hperm. split.
    + split; reflexivity.
    + intros best more H. discriminate H.
  - destruct (greedy_head top rest) as [more' Hg]. rewrite Hg. split.
    + split; [discriminate|]. intro H. rewrite H in Hperm.
      symmetry in Hperm. apply Permutation_nil in Hperm. discriminate.
    + intros best more H. inversion H; subst best more.
      split; [apply (Permutation_in _ Hperm); now left|].
      intros c Hc. apply (Permutation_in _ (Permutation_sym Hperm)) in Hc.
      destruct Hc as [<-|Hc]; [apply Qle_refl|].
      apply StronglySorted_inv in Hsorted. destruct Hsorted as [_ Hall].
      rewrite Forall_forall in Hall. now apply Hall.
Qed.

Lemma length_used_of (g : list Trade) :
  length (used_of g) = (2 * length g)%nat.
Proof.
  unfold used_of. induction g as [|a g IH]; simpl; [reflexivity|].
  rewrite IH. lia.
Qed.

(** [find_best_trade] never returns more tuples than half the number of
    rows of the day. *)
Theorem selector_size_bound (cfg : Config) (day_data : list PricePoint) :
  (2 * length (find_best_trade cfg day_data) <= length day_data)%nat.
Proof.
  assert (H : (length (used_of (find_best_trade cfg day_data))
               <= length (map fst day_data))%nat).
  { apply NoDup_incl_length.
    - apply find_best_trade_nodup.
    - intros t Ht. apply in_used_of in Ht. destruct Ht as (a & Ha & Ht).
      apply find_best_trade_times in Ha. destruct Ha as [Hb Hs].
      destruct Ht as [->| ->]; assumption. }
  rewrite length_used_of, length_map in H. exact H.
Qed.

(** * Further properties of the engine and the driver *)

Lemma execute_trade_inv (cfg : Config) (frame : list PricePoint)
  (self self' : State) (buy_time sell_time : Timestamp) (amount : Q) :
  execute_trade cfg frame self buy_time sell_time amount = Some self' ->
  exists buy_price sell_price self1,
    loc_price frame buy_time = Some buy_price
    /\ loc_price frame sell_time = Some sell_price
    /\ buy_energy cfg self buy_time
         (pymin (speed cfg) (capacity cfg - balance self)) buy_price
       = Some self1
    /\ self' = sell_energy cfg self1 sell_time sell_price.
Proof.
  unfold execute_trade.
  destruct (loc_price frame buy_time) as [bp|]; simpl; [|discriminate].
  destruct (loc_price frame sell_time) as [sp|]; simpl; [|discriminate].
  destruct (buy_energy cfg self buy_time _ bp) as [self1|] eqn:E; simpl;
    [|discriminate].
  intro H. inversion H. exists bp, sp, self1. repeat split. exact E.
Qed.

Lemma sell_energy_cases (cfg : Config) (self : State) (timestamp : Timestamp)
  (price : Q) :
  sell_energy cfg self timestamp price = self
  \/ exists lot rest,
       buy_log self = lot :: rest /\ 0 < balance self
       /\ sell_energy cfg self timestamp price
          = sell_lot cfg self timestamp price lot.
Proof.
  destruct (buy_log self) as [|lot rest] eqn:Hlog.
  - left. unfold sell_energy. now rewrite Hlog.
  - destruct (Qgtb (balance self) 0) eqn:Hpos.
    + right. exists lot, rest. apply Qgtb_true in Hpos.
      repeat split; try assumption.
      now apply (sell_energy_head cfg self timestamp price lot rest).
    + left. unfold sell_energy. now rewrite sell_loop_empty_battery.
Qed.

Section Preservation.
Variable cfg : Config.
Variable frame : list PricePoint.
Variable P : State -> Prop.
Variable T : Trade -> Prop.

Lemma run_trades_preserves :
  (forall self self' tr,
     T tr -> P self ->
     execute_trade cfg frame self (trade_buy tr) (trade_sell tr)
       (trade_profit tr) = Some self' ->
     P self') ->
  forall trades acc acc',
    Forall T trades -> P (fst acc) ->
    run_trades cfg frame acc trades = Some acc' -> P (fst acc').
Proof.
  intros Hstep trades. induction trades as [|tr trades IH];
    intros acc acc' HT HP; simpl.
  - intro H. now inversion H; subst.
  - inversion HT as [|tr' l' Htr Hrest]; subst.
    destruct acc as [self last], tr as [[b s] p]. unfold run_trade.
    destruct (may_execute last b).
    + destruct (execute_trade cfg frame self b s p) as [self1|] eqn:E; simpl;
        [|discriminate].
      apply IH; [exact Hrest|]. simpl.
      exact (Hstep self self1 (b, s, p) Htr HP E).
    + simpl. apply IH; assumption.
Qed.

Lemma execute_trade_preserves :
  (forall self timestamp price self1,
     P self ->
     buy_energy cfg self timestamp
       (pymin (speed cfg) (capacity cfg - balance self)) price = Some self1 ->
     P self1) ->
  (forall self timestamp price lot rest,
     P self -> buy_log self = lot :: rest -> 0 < balance self ->
     P (sell_lot cfg self timestamp price lot)) ->
  forall self self' buy_time sell_time amount,
    P self ->
    execute_trade cfg frame self buy_time sell_time amount = Some self' ->
    P self'.
Proof.
  intros Hbuy Hsell self self' buy_time sell_time amount HP H.
  apply execute_trade_inv in H.
  destruct H as (bp & sp & self1 & _ & _ & Hb & ->).
  pose proof (Hbuy self buy_time bp self1 HP Hb) as HP1.
  destruct (sell_energy_cases cfg self1 sell_time sp)
    as [->|(lot & rest & Hlog & Hpos & ->)]; [exact HP1|].
  exact (Hsell self1 sell_time sp lot rest HP1 Hlog Hpos).
Qed.
End Preservation.

Lemma run_preserves (cfg : Config) (days : list (list PricePoint))
  (P : State -> Prop) (final : State) :
  (forall self self' tr,
     In tr (considered cfg days) -> P self ->
     execute_trade cfg (concat days) self (trade_buy tr) (trade_sell tr)
       (trade_profit tr) = Some self' ->
     P self') ->
  P init_state -> run cfg days = Some final -> P final.
Proof.
  intros Hstep Hinit Hrun. unfold run in Hrun. rewrite run_days_flat in Hrun.
  destruct (run_trades cfg (concat days) (init_state, None)
              (considered cfg days)) as [acc|] eqn:E; simpl in Hrun;
    [|discriminate].
  inversion Hrun; subst.
  apply (run_trades_preserves cfg (concat days) P
           (fun tr => In tr (considered cfg days)) Hstep
           (considered cfg days) (init_state, None) acc);
    [now apply Forall_forall|exact Hinit|exact E].
Qed.

Lemma profit_sum_app (l : list Transaction.t) (r : Transaction.t) :
  profit_sum (l ++ [r]) == profit_sum l + Transaction.profit r.
Proof.
  induction l as [|x l IH]; simpl.
  - ring.
  - rewrite IH. ring.
Qed.

Lemma pymin3_le_first (a b c : Q) : pymin3 a b c <= a.
Proof.
  unfold pymin3. apply Qle_trans with (pymin a b);
    [apply pymin_le_l|apply pymin_le_l].
Qed.

Lemma pymin3_le_second (a b c : Q) : pymin3 a b c <= b.
Proof.
  unfold pymin3. apply Qle_trans with (pymin a b);
    [apply pymin_le_l|apply pymin_le_r].
Qed.

(** Whatever the configuration, in the ledger of a completed run the
    cycle counter is the number of buy rows and the total profit is the
    sum of the profit column, buy rows contributing 0. *)
Theorem run_ledger_accounts (cfg : Config) (days : list (list PricePoint))
  (final : State) :
  run cfg days = Some final ->
  cycles final = Z.of_nat (length (filter is_buy (transactions final)))
  /\ total_profit final == profit_sum (transactions final)
  /\ Forall (fun r => Transaction.action r = buy ->
                      Transaction.profit r = 0) (transactions final).
Proof.
  set (P := fun st =>
       cycles st = Z.of_nat (length (filter is_buy (transactions st)))
       /\ total_profit st == profit_sum (transactions st)
       /\ Forall (fun r => Transaction.action r = buy ->
                           Transaction.profit r = 0) (transactions st)).
  apply (run_preserves cfg days P).
  - intros self self' tr _.
    apply (execute_trade_preserves cfg (concat days) P).
    + intros st t price st1 (Hc & Ht & Hz) Hbuy. unfold buy_energy in Hbuy.
      destruct (Qeq_bool (capacity cfg) 0); [discriminate|].
      inversion Hbuy; subst; clear Hbuy. unfold P. simpl.
      rewrite filter_app, length_app, profit_sum_app. simpl.
      split; [lia|]. split; [rewrite Ht; ring|].
      apply Forall_app. split; [exact Hz|].
      constructor; [reflexivity|constructor].
    + intros st t price lot rest (Hc & Ht & Hz) _ _. unfold P, sell_lot.
      simpl.
      rewrite filter_app, length_app, profit_sum_app. simpl.
      split; [lia|]. split; [rewrite Ht; ring|].
      apply Forall_app. split; [exact Hz|].
      constructor; [discriminate|constructor].
  - unfold P. simpl. split; [reflexivity|]. split; [reflexivity|constructor].
Qed.

(** Whatever the configuration, in the ledger of a completed run no row
    moves more than [speed], a buy never leaves the balance above the
    capacity and a sell never leaves it below zero. *)
Theorem run_rows_within_limits (cfg : Config) (days : list (list PricePoint))
  (final : State) :
  run cfg days = Some final ->
  Forall (fun r =>
            Transaction.amount_kwh r <= speed cfg
            /\ (Transaction.action r = buy ->
                Transaction.balance r <= capacity cfg)
            /\ (Transaction.action r = sell ->
                0 <= Transaction.balance r))
    (transactions final).
Proof.
  set (P := fun st =>
       Forall (fun r =>
                 Transaction.amount_kwh r <= speed cfg
                 /\ (Transaction.action r = buy ->
                     Transaction.balance r <= capacity cfg)
                 /\ (Transaction.action r = sell ->
                     0 <= Transaction.balance r))
         (transactions st)).
  apply (run_preserves cfg days P).
  - intros self self' tr _.
    apply (execute_trade_preserves cfg (concat days) P).
    + intros st t price st1 Hrows Hbuy. unfold buy_energy in Hbuy.
      destruct (Qeq_bool (capacity cfg) 0); [discriminate|].
      inversion Hbuy; subst; clear Hbuy. unfold P. simpl.
      apply Forall_app. split; [exact Hrows|].
      constructor; [|constructor]. simpl.
      pose proof (pymin_le_l (speed cfg) (capacity cfg - balance st)).
      pose proof (pymin_le_r (speed cfg) (capacity cfg - balance st)).
      split; [assumption|]. split; [intros _; lra|discriminate].
    + intros st t price lot rest Hrows _ _. unfold P, sell_lot. simpl.
      apply Forall_app. split; [exact Hrows|].
      constructor; [|constructor]. simpl.
      pose proof (pymin3_le_first (speed cfg) (balance st) (lot_amount lot)).
      pose proof (pymin3_le_second (speed cfg) (balance st) (lot_amount lot)).
      split; [assumption|]. split; [discriminate|intros _; lra].
  - constructor.
Qed.

Lemma pymin_right_eq (x c : Q) : c <= x -> pymin x c == c.
Proof.
  intro H. unfold pymin. destruct (Qgtb x c) eqn:E; [reflexivity|].
  apply Qgtb_false in E. now apply Qle_antisym.
Qed.

Lemma pymin3_third (a b c : Q) : c <= a -> c <= b -> pymin3 a b c == c.
Proof.
  intros Ha Hb. unfold pymin3. apply pymin_right_eq. now apply pymin_glb.
Qed.

Lemma positive_capacity_nonzero (cfg : Config) :
  positive_config cfg -> ~ capacity cfg == 0.
Proof.
  intros (Hcap & _) E. rewrite E in Hcap. now apply Qlt_irrefl in Hcap.
Qed.

(** An executed pair that finds the battery empty: one buy row and one
    sell row of the same amount, and the battery is empty again. *)
Lemma execute_trade_from_empty (cfg : Config) (frame : list PricePoint)
  (self self' : State) (buy_time sell_time : Timestamp) (amount : Q) :
  positive_config cfg ->
  balance self == 0 -> buy_log self = [] ->
  execute_trade cfg frame self buy_time sell_time amount = Some self' ->
  exists buy_price sell_price moved rb rs,
    loc_price frame buy_time = Some buy_price
    /\ loc_price frame sell_time = Some sell_price
    /\ moved == Qmin (speed cfg) (capacity cfg)
    /\ transactions self' = transactions self ++ [rb; rs]
    /\ Transaction.date rb = buy_time /\ Transaction.action rb = buy
    /\ Transaction.amount_kwh rb == moved
    /\ Transaction.date rs = sell_time /\ Transaction.action rs = sell
    /\ Transaction.amount_kwh rs == moved
    /\ Transaction.price rs = sell_price
    /\ Transaction.profit rs
       == moved * (sell_price + tax_fixed_returnable cfg) * efficiency cfg
          - moved * (buy_price + tax_fixed_returnable cfg)
    /\ balance self' == 0 /\ buy_log self' = []
    /\ cycles self' = (cycles self + 1)%Z.
Proof.
  intros Hpos Hbal Hlog H. apply execute_trade_inv in H.
  destruct H as (bp & sp & self1 & Hb & Hs & Hbuy & ->).
  rewrite (buy_energy_some cfg self buy_time _ bp
             (positive_capacity_nonzero cfg Hpos)) in Hbuy.
  inversion Hbuy; subst self1; clear Hbuy.
  destruct Hpos as [Hcap Hsp].
  set (a := pymin (speed cfg) (capacity cfg - balance self)) in *.
  assert (Ha : a == Qmin (speed cfg) (capacity cfg)).
  { unfold a. rewrite pymin_Qmin.
    destruct (Q.min_spec (speed cfg) (capacity cfg - balance self))
      as [[H1 E1]|[H1 E1]];
      destruct (Q.min_spec (speed cfg) (capacity cfg)) as [[H2 E2]|[H2 E2]];
      rewrite E1, E2; lra. }
  assert (Ha0 : 0 < a).
  { rewrite Ha.
    destruct (Q.min_spec (speed cfg) (capacity cfg)) as [[H2 E2]|[H2 E2]];
      rewrite E2; assumption. }
  assert (Ha1 : a <= speed cfg) by apply pymin_le_l.
  set (self1 := mkState (balance self + a) (cycles self + 1)%Z
                  (capacity_cycles self + a / capacity cfg)
                  (total_profit self) (monthly_profit self)
                  (transactions self ++
                     [Transaction.mk buy_time buy a (a * bp) bp
                        (balance self + a) (cycles self + 1)%Z
                        (capacity_cycles self + a / capacity cfg) 0
                        (monthly_profit self) (total_profit self)])
                  (month_current self)
                  (buy_log self ++ [(buy_time, a, bp)])).
  assert (Hlog1 : buy_log self1 = [(buy_time, a, bp)])
    by (simpl; now rewrite Hlog).
  assert (Hpos1 : 0 < balance self1) by (simpl; lra).
  rewrite (sell_energy_head cfg self1 sell_time sp (buy_time, a, bp) []
             Hlog1 Hpos1).
  assert (Hm : pymin3 (speed cfg) (balance self + a) a == a).
  { apply pymin3_third; [exact Ha1|lra]. }
  exists bp, sp, a.
  eexists. eexists. unfold sell_lot.
  change (lot_amount (buy_time, a, bp)) with a.
  change (lot_price (buy_time, a, bp)) with bp.
  split; [exact Hb|]. split; [exact Hs|]. split; [exact Ha|]. split.
  { simpl. rewrite <- app_assoc. simpl. reflexivity. }
  simpl. rewrite Hlog. simpl. rewrite lot_eqb_refl.
  repeat split; try reflexivity; try exact Hm.
  - rewrite Hm. reflexivity.
  - rewrite Hm. lra.
Qed.

Lemma execute_trade_defined (cfg : Config) (frame : list PricePoint)
  (self : State) (buy_time sell_time : Timestamp) (amount : Q) :
  ~ capacity cfg == 0 ->
  In buy_time (map fst frame) -> In sell_time (map fst frame) ->
  exists self', execute_trade cfg frame self buy_time sell_time amount
                = Some self'.
Proof.
  intros Hcap Hb Hs. unfold execute_trade.
  destruct (loc_price_in frame buy_time Hb) as [bp ->].
  destruct (loc_price_in frame sell_time Hs) as [sp ->]. simpl.
  rewrite (buy_energy_some cfg self buy_time _ bp Hcap). simpl.
  eexists. reflexivity.
Qed.

Lemma ledger_keys_app (l1 l2 : list Transaction.t) :
  ledger_keys (l1 ++ l2) = ledger_keys l1 ++ ledger_keys l2.
Proof. unfold ledger_keys. apply map_app. Qed.

Lemma run_trades_from_empty (cfg : Config) (frame : list PricePoint) :
  positive_config cfg ->
  forall trades self last,
    (forall tr, In tr trades ->
       In (trade_buy tr) (map fst frame)
       /\ In (trade_sell tr) (map fst frame)) ->
    balance self == 0 -> buy_log self = [] ->
    exists acc',
      run_trades cfg frame (self, last) trades = Some acc'
      /\ balance (fst acc') == 0 /\ buy_log (fst acc') = []
      /\ ledger_keys (transactions (fst acc'))
         = ledger_keys (transactions self)
           ++ flat_map pair_keys (executed_from last trades).
Proof.
  intros Hpos trades. induction trades as [|tr trades IH];
    intros self last Hin Hbal Hlog.
  - exists (self, last). simpl. rewrite app_nil_r. repeat split; assumption.
  - destruct (Hin tr (or_introl eq_refl)) as [Hb Hs].
    assert (Hin' : forall tr', In tr' trades ->
              In (trade_buy tr') (map fst frame)
              /\ In (trade_sell tr') (map fst frame))
      by (intros tr' H'; apply Hin; now right).
    destruct tr as [[b s] p]. unfold trade_buy, trade_sell in Hb, Hs.
    simpl in Hb, Hs. simpl. unfold trade_buy at 1. simpl.
    destruct (may_execute last b) eqn:Hexec.
    + destruct (execute_trade_defined cfg frame self b s p
                  (positive_capacity_nonzero cfg Hpos) Hb Hs) as [self1 E].
      rewrite E. simpl.
      destruct (execute_trade_from_empty cfg frame self self1 b s p
                  Hpos Hbal Hlog E)
        as (bp & sp & moved & rb & rs & _ & _ & _ & Htx & Hdb & Hab & _
            & Hds & Has & _ & _ & _ & Hbal1 & Hlog1 & _).
      destruct (IH self1 (Some s) Hin' Hbal1 Hlog1)
        as (acc' & Hrun & Hbal' & Hlog' & Hkeys).
      exists acc'. repeat split; try assumption.
      rewrite Hkeys, Htx, ledger_keys_app. unfold ledger_keys at 2.
      simpl. rewrite Hdb, Hab, Hds, Has. unfold pair_keys, trade_buy,
        trade_sell. simpl. rewrite <- app_assoc. reflexivity.
    + simpl.
      destruct (IH self (Some s) Hin' Hbal Hlog)
        as (acc' & Hrun & Hbal' & Hlog' & Hkeys).
      exists acc'. repeat split; assumption.
Qed.

(** With a positive capacity and a positive speed the run completes on
    every price series, and its ledger is one buy row followed by one
    sell row for each pair that passes the driver's test, in the order
    the pairs are considered; every row moves [min(speed, capacity)],
    and the battery is empty and no lot is pending at the end. *)
Theorem run_ledger_pairs (cfg : Config) (days : list (list PricePoint)) :
  positive_config cfg ->
  exists final,
    run cfg days = Some final
    /\ balance final == 0 /\ buy_log final = []
    /\ ledger_keys (transactions final)
       = flat_map pair_keys (executed_from None (considered cfg days))
    /\ Forall (fun r => Transaction.amount_kwh r
                        == Qmin (speed cfg) (capacity cfg))
         (transactions final).
Proof.
  intro Hpos.
  assert (init_bal : balance init_state == 0) by reflexivity.
  destruct (run_trades_from_empty cfg (concat days) Hpos
              (considered cfg days) init_state None
              (considered_times cfg days) init_bal eq_refl)
    as (acc & Hrun & Hbal & Hlog & Hkeys).
  assert (Hfinal : run cfg days = Some (fst acc)).
  { unfold run. rewrite run_days_flat, Hrun. reflexivity. }
  exists (fst acc). split; [exact Hfinal|].
  split; [exact Hbal|]. split; [exact Hlog|]. split; [exact Hkeys|].
  set (P := fun st =>
       (balance st == 0 /\ buy_log st = [])
       /\ Forall (fun r => Transaction.amount_kwh r
                           == Qmin (speed cfg) (capacity cfg))
            (transactions st)).
  assert (HP : P (fst acc)).
  { apply (run_preserves cfg days P (fst acc)); [|unfold P; simpl|exact Hfinal].
    - intros self self' tr _ ((Hb0 & Hl0) & Hrows) E.
      destruct (execute_trade_from_empty cfg (concat days) self self' _ _ _
                  Hpos Hb0 Hl0 E)
        as (bp & sp & moved & rb & rs & _ & _ & Hmoved & Htx & _ & _ & Harb
            & _ & _ & Hars & _ & _ & Hbal1 & Hlog1 & _).
      unfold P. split; [split; assumption|].
      rewrite Htx. apply Forall_app. split; [exact Hrows|].
      constructor; [now rewrite Harb|].
      constructor; [now rewrite Hars|constructor].
    - split; [split; reflexivity|constructor]. }
  destruct HP as (_ & Hrows). exact Hrows.
Qed.

Lemma loc_price_unique (frame : list PricePoint) (t : Timestamp) (p : Q) :
  NoDup (map fst frame) -> In (t, p) frame -> loc_price frame t = Some p.
Proof.
  induction frame as [|[t' p'] frame IH]; simpl; intros Hnd Hin;
    [contradiction|].
  apply NoDup_cons_iff in Hnd. destruct Hnd as [Hnot Hnd].
  destruct Hin as [E|Hin].
  - inversion E; subst. now rewrite ts_eqb_refl.
  - destruct (ts_eqb t' t) eqn:Et.
    + apply ts_eqb_eq in Et. subst t'. exfalso. apply Hnot.
      apply in_map_iff. now exists (t, p).
    + now apply IH.
Qed.

Lemma considered_backed (cfg : Config) (days : list (list PricePoint))
  (tr : Trade) :
  NoDup (map fst (concat days)) ->
  In tr (considered cfg days) ->
  exists pb ps,
    In (trade_buy tr, pb) (concat days)
    /\ In (trade_sell tr, ps) (concat days)
    /\ loc_price (concat days) (trade_buy tr) = Some pb
    /\ loc_price (concat days) (trade_sell tr) = Some ps
    /\ trade_profit tr = profit_kwh cfg pb ps.
Proof.
  intros Hnd H. unfold considered in H. apply in_concat in H.
  destruct H as (l & Hl & Hin). apply in_map_iff in Hl.
  destruct Hl as (d & <- & Hd). apply greedy_in in Hin.
  apply sorted_candidate_in in Hin. destruct tr as [[b s] p].
  apply candidates_in in Hin.
  destruct Hin as (pb & ps & Hb & Hs & _ & Hp & _).
  assert (Hb' : In (b, pb) (concat days)) by (apply in_concat; now exists d).
  assert (Hs' : In (s, ps) (concat days)) by (apply in_concat; now exists d).
  exists pb, ps. unfold trade_buy, trade_sell, trade_profit. simpl.
  repeat split; try assumption; now apply loc_price_unique.
Qed.

(** With a positive capacity and a positive speed and a price series
    whose timestamps are all different, every sell row realises the pair
    being executed and no other: it carries the pair's sell timestamp
    and sell price, it moves [min(speed, capacity)], and its profit is
    the program's profit expression at that amount and at the pair's own
    buy and sell prices, the two prices from which the selector computed
    the pair's unit profit. *)
Theorem run_sell_realises_own_pair (cfg : Config)
  (days : list (list PricePoint)) (final : State) :
  positive_config cfg ->
  NoDup (map fst (concat days)) ->
  run cfg days = Some final ->
  Forall (fun r =>
            Transaction.action r = sell ->
            exists tr pb ps,
              In tr (considered cfg days)
              /\ In (trade_buy tr, pb) (concat days)
              /\ In (trade_sell tr, ps) (concat days)
              /\ trade_profit tr
                 = (ps + tax_fixed_returnable cfg) * efficiency cfg
                   - (pb + tax_fixed_returnable cfg)
              /\ Transaction.date r = trade_sell tr
              /\ Transaction.price r = ps
              /\ Transaction.amount_kwh r == Qmin (speed cfg) (capacity cfg)
              /\ Transaction.profit r
                 == Qmin (speed cfg) (capacity cfg)
                    * (ps + tax_fixed_returnable cfg) * efficiency cfg
                    - Qmin (speed cfg) (capacity cfg)
                      * (pb + tax_fixed_returnable cfg))
    (transactions final).
Proof.
  intros Hpos Hnd Hrun.
  set (R := fun r =>
       Transaction.action r = sell ->
       exists tr pb ps,
         In tr (considered cfg days)
         /\ In (trade_buy tr, pb) (concat days)
         /\ In (trade_sell tr, ps) (concat days)
         /\ trade_profit tr
            = (ps + tax_fixed_returnable cfg) * efficiency cfg
              - (pb + tax_fixed_returnable cfg)
         /\ Transaction.date r = trade_sell tr
         /\ Transaction.price r = ps
         /\ Transaction.amount_kwh r == Qmin (speed cfg) (capacity cfg)
         /\ Transaction.profit r
            == Qmin (speed cfg) (capacity cfg)
               * (ps + tax_fixed_returnable cfg) * efficiency cfg
               - Qmin (speed cfg) (capacity cfg)
                 * (pb + tax_fixed_returnable cfg)).
  set (P := fun st =>
       (balance st == 0 /\ buy_log st = [])
       /\ Forall R (transactions st)).
  assert (HP : P final).
  { apply (run_preserves cfg days P final); [|unfold P; simpl|exact Hrun].
    - intros self self' tr Htr ((Hb0 & Hl0) & Hrows) E.
      destruct (execute_trade_from_empty cfg (concat days) self self' _ _ _
                  Hpos Hb0 Hl0 E)
        as (bp & sp & moved & rb & rs & Hlb & Hls & Hmoved & Htx & _ & Hab
            & _ & Hds & _ & Hars & Hprice & Hprs & Hbal1 & Hlog1 & _).
      destruct (considered_backed cfg days tr Hnd Htr)
        as (pb & ps & Hinb & Hins & Hlb' & Hls' & Hp).
      rewrite Hlb in Hlb'. rewrite Hls in Hls'.
      inversion Hlb'; inversion Hls'; subst pb ps.
      unfold P. split; [split; assumption|].
      rewrite Htx. apply Forall_app. split; [exact Hrows|].
      constructor; [unfold R; rewrite Hab; discriminate|].
      constructor; [|constructor]. intros _.
      exists tr, bp, sp. repeat split; try assumption.
      + now rewrite Hars.
      + rewrite Hprs, Hmoved. reflexivity.
    - split; [split; reflexivity|constructor]. }
  destruct HP as (_ & Hrows). exact Hrows.
Qed.

Lemma energy_sum_app (l : list Transaction.t) (r : Transaction.t) :
  energy_sum (l ++ [r]) == energy_sum l + row_energy r.
Proof.
  induction l as [|x l IH]; simpl.
  - ring.
  - rewrite IH. ring.
Qed.

(** Whatever the configuration, the final balance of a completed run is
    the energy bought minus the energy sold according to the ledger. *)
Theorem run_energy_conservation (cfg : Config)
  (days : list (list PricePoint)) (final : State) :
  run cfg days = Some final ->
  balance final == energy_sum (transactions final).
Proof.
  set (P := fun st => balance st == energy_sum (transactions st)).
  apply (run_preserves cfg days P).
  - intros self self' tr _.
    apply (execute_trade_preserves cfg (concat days) P).
    + intros st t price st1 Hb Hbuy. unfold buy_energy in Hbuy.
      destruct (Qeq_bool (capacity cfg) 0); [discriminate|].
      inversion Hbuy; subst; clear Hbuy. unfold P in *. simpl.
      rewrite energy_sum_app. unfold row_energy. simpl. lra.
    + intros st t price lot rest Hb _ _. unfold P, sell_lot in *. simpl.
      rewrite energy_sum_app. unfold row_energy. simpl. lra.
  - unfold P. reflexivity.
Qed.

(** With a speed that is not positive the run records no sell at all:
    the ledger holds buy rows only, the balance never rises above zero
    and the total profit stays 0. *)
Theorem run_without_speed_never_sells (cfg : Config)
  (days : list (list PricePoint)) (final : State) :
  speed cfg <= 0 ->
  run cfg days = Some final ->
  Forall (fun r => Transaction.action r = buy) (transactions final)
  /\ balance final <= 0
  /\ total_profit final = 0.
Proof.
  intro Hspeed.
  set (P := fun st =>
       Forall (fun r => Transaction.action r = buy) (transactions st)
       /\ balance st <= 0 /\ total_profit st = 0).
  apply (run_preserves cfg days P).
  - intros self self' tr _.
    apply (execute_trade_preserves cfg (concat days) P).
    + intros st t price st1 (Hrows & Hb & Ht) Hbuy. unfold buy_energy in Hbuy.
      destruct (Qeq_bool (capacity cfg) 0); [discriminate|].
      inversion Hbuy; subst; clear Hbuy. unfold P. simpl.
      split; [|split; [|exact Ht]].
      * apply Forall_app. split; [exact Hrows|].
        constructor; [reflexivity|constructor].
      * pose proof (pymin_le_l (speed cfg) (capacity cfg - balance st)).
        lra.
    + intros st t price lot rest (_ & Hb & _) _ Hpos. exfalso.
      apply (Qlt_irrefl 0). now apply Qlt_le_trans with (balance st).
  - unfold P. simpl. split; [constructor|]. split; [apply Qle_refl|reflexivity].
Qed.

(** With a capacity of zero the run stops with an error at the first
    pair the selector returns (the division by the capacity in
    [buy_energy]); it completes, with an empty ledger, only when no day
    yields a pair. *)
Theorem run_zero_capacity (cfg : Config) (days : list (list PricePoint)) :
  capacity cfg == 0 ->
  (considered cfg days = [] -> run cfg days = Some init_state)
  /\ (considered cfg days <> [] -> run cfg days = None).
Proof.
  intro Hcap. unfold run. rewrite run_days_flat.
  pose proof (considered_times cfg days) as Htimes.
  destruct (considered cfg days) as [|[[b s] p] rest].
  - split; [reflexivity|]. intro H. now contradiction H.
  - split; [discriminate|]. intros _. simpl.
    destruct (Htimes (b, s, p) (or_introl eq_refl)) as [Hb Hs].
    unfold trade_buy, trade_sell in Hb, Hs. simpl in Hb, Hs.
    unfold execute_trade.
    destruct (loc_price_in (concat days) b Hb) as [bp ->].
    destruct (loc_price_in (concat days) s Hs) as [sp ->]. simpl.
    unfold buy_energy. apply Qeq_bool_iff in Hcap. rewrite Hcap.
    reflexivity.
Qed.

Lemma sell_energy_day_ahead (cfg : Config) (d : Z) (self : State)
  (timestamp : Timestamp) (price : Q) :
  sell_energy (with_day_ahead_time cfg d) self timestamp price
  = sell_energy cfg self timestamp price.
Proof.
  unfold sell_energy. induction (buy_log self) as [|lot rest IH]; simpl;
    [reflexivity|].
  destruct (Qgtb (balance self) 0); [reflexivity|exact IH].
Qed.

Lemma execute_trade_day_ahead (cfg : Config) (d : Z)
  (frame : list PricePoint) (self : State) (buy_time sell_time : Timestamp)
  (amount : Q) :
  execute_trade (with_day_ahead_time cfg d) frame self buy_time sell_time
    amount
  = execute_trade cfg frame self buy_time sell_time amount.
Proof.
  unfold execute_trade.
  change (speed (with_day_ahead_time cfg d)) with (speed cfg).
  change (capacity (with_day_ahead_time cfg d)) with (capacity cfg).
  destruct (loc_price frame buy_time) as [bp|]; [|reflexivity].
  destruct (loc_price frame sell_time) as [sp|]; [|reflexivity].
  unfold bind.
  change (buy_energy (with_day_ahead_time cfg d) self buy_time
            (pymin (speed cfg) (capacity cfg - balance self)) bp)
    with (buy_energy cfg self buy_time
            (pymin (speed cfg) (capacity cfg - balance self)) bp).
  destruct (buy_energy cfg self buy_time _ bp) as [self1|]; [|reflexivity].
  now rewrite sell_energy_day_ahead.
Qed.

Lemma run_trades_day_ahead (cfg : Config) (d : Z) (frame : list PricePoint)
  (trades : list Trade) (acc : State * option Timestamp) :
  run_trades (with_day_ahead_time cfg d) frame acc trades
  = run_trades cfg frame acc trades.
Proof.
  revert acc. induction trades as [|tr trades IH]; intro acc; simpl;
    [reflexivity|].
  assert (E : run_trade (with_day_ahead_time cfg d) frame acc tr
              = run_trade cfg frame acc tr).
  { destruct acc as [self last], tr as [[b s] p]. unfold run_trade.
    now rewrite execute_trade_day_ahead. }
  rewrite E. destruct (run_trade cfg frame acc tr); simpl;
    [apply IH|reflexivity].
Qed.

Lemma find_best_trade_day_ahead (cfg : Config) (d : Z)
  (day_data : list PricePoint) :
  find_best_trade (with_day_ahead_time cfg d) day_data
  = find_best_trade cfg day_data.
Proof. reflexivity. Qed.

(** [day_ahead_time] has no influence on the selector nor on the
    engine: changing it changes neither the output of [find_best_trade]
    for any day nor the final state, ledger included, that [run] hands
    to [save_results].  (The parameter is read again only there, for the
    name of the output file.) *)
Theorem ledger_independent_of_day_ahead_time (cfg : Config) (d : Z)
  (days : list (list PricePoint)) :
  (forall day_data,
     find_best_trade (with_day_ahead_time cfg d) day_data
     = find_best_trade cfg day_data)
  /\ run (with_day_ahead_time cfg d) days = run cfg days.
Proof.
  split; [intro day_data; apply find_best_trade_day_ahead|].
  unfold run. rewrite !run_days_flat, run_trades_day_ahead.
  unfold considered.
  replace (map (find_best_trade (with_day_ahead_time cfg d)) days)
    with (map (find_best_trade cfg) days); [reflexivity|].
  apply map_ext. intro day_data. symmetry.
  apply find_best_trade_day_ahead.
Qed.

(** * Properties of the frame: [drop_duplicates] and [loc] *)

Lemma price_seen_iff (p : Q) (seen : list Q) :
  existsb (Qeq_bool p) seen = true <-> exists q, In q seen /\ p == q.
Proof.
  rewrite existsb_exists. split; intros (q & Hq & H); exists q;
    (split; [exact Hq|]); now apply Qeq_bool_iff.
Qed.

Lemma drop_duplicates_from_in (seen : list Q) (frame : list PricePoint)
  (row : PricePoint) :
  In row (drop_duplicates_from seen frame) ->
  In row frame /\ existsb (Qeq_bool (snd row)) seen = false.
Proof.
  revert seen. induction frame as [|[t p] frame IH]; intro seen; simpl;
    [contradiction|].
  destruct (existsb (Qeq_bool p) seen) eqn:E.
  - intro H. apply IH in H. destruct H as [H1 H2]. split; [now right|exact H2].
  - intros [<-|H].
    + split; [now left|exact E].
    + apply IH in H. destruct H as [H1 H2]. split; [now right|].
      simpl in H2. apply orb_false_iff in H2. now destruct H2.
Qed.

Lemma drop_duplicates_from_covers (seen : list Q) (frame : list PricePoint)
  (t : Timestamp) (p : Q) :
  In (t, p) frame ->
  existsb (Qeq_bool p) seen = true
  \/ exists t' p', In (t', p') (drop_duplicates_from seen frame) /\ p == p'.
Proof.
  revert seen. induction frame as [|[t0 p0] frame IH]; intro seen; simpl;
    [contradiction|].
  intros [E|Hin].
  - inversion E; subst t0 p0. destruct (existsb (Qeq_bool p) seen) eqn:Es.
    + now left.
    + right. exists t, p. split; [now left|reflexivity].
  - destruct (existsb (Qeq_bool p0) seen) eqn:Es.
    + now apply IH.
    + destruct (IH (p0 :: seen) Hin) as [H|(t' & p' & H1 & H2)].
      * simpl in H. apply orb_true_iff in H. destruct H as [H|H].
        -- right. exists t0, p0. split; [now left|now apply Qeq_bool_iff].
        -- now left.
      * right. exists t', p'. split; [now right|exact H2].
Qed.

Lemma drop_duplicates_from_distinct (seen : list Q)
  (frame : list PricePoint) :
  ForallOrdPairs (fun a b => ~ snd a == snd b)
    (drop_duplicates_from seen frame).
Proof.
  revert seen. induction frame as [|[t p] frame IH]; intro seen; simpl;
    [constructor|].
  destruct (existsb (Qeq_bool p) seen); [apply IH|].
  constructor; [|apply IH].
  apply Forall_forall. intros row Hrow.
  apply drop_duplicates_from_in in Hrow. destruct Hrow as [_ H].
  simpl in H. apply orb_false_iff in H. destruct H as [H _].
  apply Qeq_bool_neq in H. simpl. intro E. apply H. now symmetry.
Qed.

Lemma drop_duplicates_from_idem (seen : list Q) (frame : list PricePoint) :
  drop_duplicates_from seen (drop_duplicates_from seen frame)
  = drop_duplicates_from seen frame.
Proof.
  revert seen. induction frame as [|[t p] frame IH]; intro seen; simpl;
    [reflexivity|].
  destruct (existsb (Qeq_bool p) seen) eqn:E; [apply IH|].
  simpl. rewrite E. now rewrite IH.
Qed.

(** [drop_duplicates] compares prices, not dates: each row it keeps is a
    row of the frame, the prices of the rows it keeps are pairwise
    different, every price of the frame is the price of a kept row, the
    first row is always kept, and applying it twice changes nothing
    more.  Two rows with the same date and different prices are both
    kept; of two rows with the same price the second is dropped even
    though its date differs. *)
Theorem drop_duplicates_by_price (frame : list PricePoint) :
  (forall row, In row (drop_duplicates frame) -> In row frame)
  /\ ForallOrdPairs (fun a b => ~ snd a == snd b) (drop_duplicates frame)
  /\ (forall t p, In (t, p) frame ->
        exists t' p', In (t', p') (drop_duplicates frame) /\ p == p')
  /\ (forall row rest,
        frame = row :: rest ->
        exists more, drop_duplicates frame = row :: more)
  /\ drop_duplicates (drop_duplicates frame) = drop_duplicates frame
  /\ (forall t p q, ~ p == q ->
        drop_duplicates [(t, p); (t, q)] = [(t, p); (t, q)])
  /\ (forall t1 t2 p, drop_duplicates [(t1, p); (t2, p)] = [(t1, p)]).
Proof.
  unfold drop_duplicates.
  split; [|split; [|split; [|split; [|split; [|split]]]]].
  - intros row H. now apply drop_duplicates_from_in in H.
  - apply drop_duplicates_from_distinct.
  - intros t p H.
    destruct (drop_duplicates_from_covers [] frame t p H) as [H'|H'];
      [discriminate H'|exact H'].
  - intros [t p] rest ->. simpl. eexists. reflexivity.
  - apply drop_duplicates_from_idem.
  - intros t p q Hne. simpl.
    destruct (Qeq_bool q p) eqn:E; [|reflexivity].
    apply Qeq_bool_iff in E. exfalso. apply Hne. now symmetry.
  - intros t1 t2 p. simpl.
    assert (E : Qeq_bool p p = true) by (apply Qeq_bool_iff; reflexivity).
    rewrite E. reflexivity.
Qed.

(** The price lookup on a frame whose timestamps are all different: it
    fails exactly for a timestamp that is not in the index, and
    otherwise returns exactly the price stored with the timestamp. *)
Theorem loc_price_lookup (frame : list PricePoint) (t : Timestamp) :
  NoDup (map fst frame) ->
  (loc_price frame t = None <-> ~ In t (map fst frame))
  /\ (forall p, loc_price frame t = Some p <-> In (t, p) frame).
Proof.
  intro Hnd.
  assert (Hfound : forall fr p, loc_price fr t = Some p -> In (t, p) fr).
  { induction fr as [|[t' p'] fr IH]; simpl; intros p H; [discriminate|].
    destruct (ts_eqb t' t) eqn:E.
    - apply ts_eqb_eq in E. subst t'. inversion H; subst p'. now left.
    - right. now apply IH. }
  split.
  - split.
    + intros Hnone Hin. destruct (loc_price_in frame t Hin) as [p Hp].
      congruence.
    + intro Hnot. destruct (loc_price frame t) as [p|] eqn:E; [|reflexivity].
      exfalso. apply Hnot. apply in_map_iff. exists (t, p).
      split; [reflexivity|now apply Hfound].
  - intro p. split; [apply Hfound|now apply loc_price_unique].
Qed.

(** * The columns of the ledger are running totals *)

Lemma snoc_split (A : Type) (l pre post : list A) (x r : A) :
  l ++ [x] = pre ++ r :: post ->
  (post = [] /\ pre = l /\ r = x)
  \/ exists post', post = post' ++ [x] /\ l = pre ++ r :: post'.
Proof.
  intro H. destruct (rev post) as [|y rpost] eqn:E.
  - left. assert (post = []) as ->.
    { destruct post as [|z post]; [reflexivity|].
      apply (f_equal (@length _)) in E. rewrite length_rev in E.
      discriminate. }
    apply app_inj_tail in H. destruct H as [-> ->]. repeat split.
  - right. assert (Hpost : post = rev rpost ++ [y]).
    { rewrite <- (rev_involutive post), E. reflexivity. }
    rewrite Hpost in H.
    replace (pre ++ r :: rev rpost ++ [y])
      with ((pre ++ r :: rev rpost) ++ [y]) in H
      by (rewrite <- app_assoc; reflexivity).
    apply app_inj_tail in H. destruct H as [-> ->].
    exists (rev rpost). split; [exact Hpost|reflexivity].
Qed.

Lemma count_buy_app (l : list Transaction.t) (r : Transaction.t) :
  Z.of_nat (length (filter is_buy (l ++ [r])))
  = (Z.of_nat (length (filter is_buy l))
     + (if is_buy r then 1 else 0))%Z.
Proof.
  rewrite filter_app, length_app. simpl. destruct (is_buy r); simpl; lia.
Qed.

(** Whatever the configuration, every row of the ledger of a completed
    run carries running totals of the rows up to and including itself:
    its [balance] is the energy bought minus the energy sold, its
    [cycles] the number of buy rows and its [total_profit] the sum of
    the profits; its [amount_eur] is amount times price, times the
    efficiency for a sell. *)
Theorem run_ledger_running_totals (cfg : Config)
  (days : list (list PricePoint)) (final : State)
  (pre : list Transaction.t) (r : Transaction.t)
  (post : list Transaction.t) :
  run cfg days = Some final ->
  transactions final = pre ++ r :: post ->
  Transaction.balance r == energy_sum (pre ++ [r])
  /\ Transaction.cycles r
     = Z.of_nat (length (filter is_buy (pre ++ [r])))
  /\ Transaction.total_profit r == profit_sum (pre ++ [r])
  /\ Transaction.amount_eur r
     = match Transaction.action r with
       | buy => Transaction.amount_kwh r * Transaction.price r
       | sell => Transaction.amount_kwh r * Transaction.price r
                 * efficiency cfg
       end.
Proof.
  intros Hrun Hsplit.
  set (Q0 := fun (r : Transaction.t) (upto : list Transaction.t) =>
       Transaction.balance r == energy_sum upto
       /\ Transaction.cycles r = Z.of_nat (length (filter is_buy upto))
       /\ Transaction.total_profit r == profit_sum upto
       /\ Transaction.amount_eur r
          = match Transaction.action r with
            | buy => Transaction.amount_kwh r * Transaction.price r
            | sell => Transaction.amount_kwh r * Transaction.price r
                      * efficiency cfg
            end).
  set (P := fun st =>
       (balance st == energy_sum (transactions st)
        /\ cycles st = Z.of_nat (length (filter is_buy (transactions st)))
        /\ total_profit st == profit_sum (transactions st))
       /\ forall pre r post,
            transactions st = pre ++ r :: post -> Q0 r (pre ++ [r])).
  assert (Hstep : forall st st' x,
            P st -> transactions st' = transactions st ++ [x] ->
            Q0 x (transactions st ++ [x]) ->
            balance st' == Transaction.balance x ->
            cycles st' = Transaction.cycles x ->
            total_profit st' == Transaction.total_profit x ->
            P st').
  { intros st st' x (Hst & Hrows) Htx (Hx1 & Hx2 & Hx3 & Hx4) Hb Hc Ht.
    split.
    - rewrite Htx, Hb, Hc, Ht. repeat split; assumption.
    - intros pre0 r0 post0 E. rewrite Htx in E.
      apply snoc_split in E.
      destruct E as [(-> & -> & ->)|(post' & -> & E)].
      + repeat split; assumption.
      + exact (Hrows pre0 r0 post' E). }
  assert (HP : P final).
  { apply (run_preserves cfg days P final); [| |exact Hrun].
    - intros self self' tr _.
      apply (execute_trade_preserves cfg (concat days) P).
      + intros st t price st1 HPst Hbuy. unfold buy_energy in Hbuy.
        destruct (Qeq_bool (capacity cfg) 0); [discriminate|].
        inversion Hbuy; subst st1; clear Hbuy.
        destruct HPst as ((Hb & Hc & Ht) & Hrows).
        eapply (Hstep st); [split; [repeat split|]; eassumption
                           |simpl; reflexivity| |simpl; reflexivity
                           |simpl; reflexivity|simpl; reflexivity].
        unfold Q0. rewrite energy_sum_app, count_buy_app, profit_sum_app.
        unfold row_energy. simpl. repeat split; try lra. lia.
      + intros st t price lot rest HPst _ _.
        destruct HPst as ((Hb & Hc & Ht) & Hrows).
        eapply (Hstep st); [split; [repeat split|]; eassumption
                           |unfold sell_lot; simpl; reflexivity|
                           |unfold sell_lot; simpl; reflexivity
                           |unfold sell_lot; simpl; reflexivity
                           |unfold sell_lot; simpl; reflexivity].
        unfold Q0. rewrite energy_sum_app, count_buy_app, profit_sum_app.
        unfold row_energy. simpl. repeat split; try lra. lia.
    - split; [simpl; repeat split; reflexivity|].
      intros pre0 r0 post0 E. simpl in E. now destruct pre0. }
  destruct HP as (_ & Hrows). exact (Hrows pre r post Hsplit).
Qed.

(** * The further theorems at concrete inputs *)

Ltac in_list := repeat (try (left; reflexivity); right).

Lemma dayX_timestamps_distinct : NoDup (map fst (concat [dayX])).
Proof.
  repeat (constructor;
          [let H := fresh in
           intro H; simpl in H;
           repeat (destruct H as [H|H]; [discriminate H|]); exact H|]).
  constructor.
Qed.

Lemma selector_output_admissible_witness :
  In pairX1 (find_best_trade cfgA dayX)
  /\ exists pb ps,
       In (at_hour 10, pb) dayX /\ In (at_hour 20, ps) dayX
       /\ profit_min cfgA <= 100.
Proof.
  assert (H : In (at_hour 10, at_hour 20, 100) (find_best_trade cfgA dayX))
    by (vm_compute; in_list).
  split; [exact H|].
  destruct (selector_output_admissible cfgA dayX (at_hour 10) (at_hour 20)
              100 H) as (pb & ps & Hb & Hs & _ & _ & Hle).
  exists pb, ps. repeat split; assumption.
Defined.

Lemma selector_rejects_only_clashing_witness :
  In pairX4 (candidates cfgA dayX)
  /\ (In pairX4 (find_best_trade cfgA dayX)
      \/ exists a,
           In a (find_best_trade cfgA dayX)
           /\ shares_timestamp pairX4 a
           /\ trade_profit pairX4 <= trade_profit a).
Proof.
  assert (H : In pairX4 (candidates cfgA dayX)) by (vm_compute; in_list).
  split; [exact H|].
  exact (selector_rejects_only_clashing cfgA dayX pairX4 H).
Defined.

Lemma run_ledger_accounts_witness :
  exists final,
    run cfgA [dayX] = Some final
    /\ cycles final = Z.of_nat (length (filter is_buy (transactions final)))
    /\ total_profit final == profit_sum (transactions final).
Proof.
  destruct (run cfgA [dayX]) as [final|] eqn:E;
    [|vm_compute in E; discriminate E].
  exists final. split; [reflexivity|].
  destruct (run_ledger_accounts cfgA [dayX] final E) as (Hc & Ht & _).
  split; assumption.
Defined.

Lemma run_rows_within_limits_witness :
  exists final,
    run cfg_main [dayX] = Some final
    /\ Forall (fun r =>
                 Transaction.amount_kwh r <= speed cfg_main
                 /\ (Transaction.action r = buy ->
                     Transaction.balance r <= capacity cfg_main)
                 /\ (Transaction.action r = sell ->
                     0 <= Transaction.balance r))
         (transactions final).
Proof.
  destruct (run cfg_main [dayX]) as [final|] eqn:E;
    [|vm_compute in E; discriminate E].
  exists final. split; [reflexivity|].
  exact (run_rows_within_limits cfg_main [dayX] final E).
Defined.

Lemma run_ledger_pairs_witness :
  positive_config cfg_main
  /\ exists final,
       run cfg_main [dayX] = Some final
       /\ balance final == 0
       /\ ledger_keys (transactions final)
          = flat_map pair_keys
              (executed_from None (considered cfg_main [dayX])).
Proof.
  assert (H : positive_config cfg_main) by (split; qcompute).
  split; [exact H|].
  destruct (run_ledger_pairs cfg_main [dayX] H)
    as (final & Hrun & Hbal & _ & Hkeys & _).
  exists final. repeat split; assumption.
Defined.

Lemma run_sell_realises_own_pair_witness :
  positive_config cfgA
  /\ NoDup (map fst (concat [dayX]))
  /\ exists final,
       run cfgA [dayX] = Some final
       /\ Forall (fun r =>
                    Transaction.action r = sell ->
                    exists tr,
                      In tr (considered cfgA [dayX])
                      /\ Transaction.date r = trade_sell tr)
            (transactions final).
Proof.
  assert (H : positive_config cfgA) by (split; qcompute).
  pose proof dayX_timestamps_distinct as Hnd.
  split; [exact H|]. split; [exact Hnd|].
  destruct (run cfgA [dayX]) as [final|] eqn:E;
    [|vm_compute in E; discriminate E].
  exists final. split; [reflexivity|].
  pose proof (run_sell_realises_own_pair cfgA [dayX] final H Hnd E) as Hrows.
  eapply Forall_impl; [|exact Hrows].
  intros r Hr Hsell. destruct (Hr Hsell) as (tr & pb & ps & Htr & _ & _ & _
                                            & Hdate & _).
  exists tr. split; assumption.
Defined.

Lemma run_energy_conservation_witness :
  exists final,
    run cfgA [dayX] = Some final
    /\ balance final == energy_sum (transactions final).
Proof.
  destruct (run cfgA [dayX]) as [final|] eqn:E;
    [|vm_compute in E; discriminate E].
  exists final. split; [reflexivity|].
  exact (run_energy_conservation cfgA [dayX] final E).
Defined.

Lemma run_without_speed_never_sells_witness :
  speed cfg_no_speed <= 0
  /\ exists final,
       run cfg_no_speed [dayX] = Some final
       /\ Forall (fun r => Transaction.action r = buy) (transactions final)
       /\ total_profit final = 0.
Proof.
  assert (H : speed cfg_no_speed <= 0) by qcompute.
  split; [exact H|].
  destruct (run cfg_no_speed [dayX]) as [final|] eqn:E;
    [|vm_compute in E; discriminate E].
  exists final. split; [reflexivity|].
  destruct (run_without_speed_never_sells cfg_no_speed [dayX] final H E)
    as (Hrows & _ & Htot).
  split; assumption.
Defined.

Lemma run_zero_capacity_witness :
  capacity cfg_no_capacity == 0
  /\ considered cfg_no_capacity [dayX] <> []
  /\ run cfg_no_capacity [dayX] = None.
Proof.
  assert (H : capacity cfg_no_capacity == 0) by reflexivity.
  assert (N : considered cfg_no_capacity [dayX] <> [])
    by (vm_compute; discriminate).
  split; [exact H|]. split; [exact N|].
  destruct (run_zero_capacity cfg_no_capacity [dayX] H) as (_ & Hnone).
  exact (Hnone N).
Defined.

Lemma run_ledger_running_totals_witness :
  exists final r post,
    run cfgA [dayA] = Some final
    /\ transactions final = [] ++ r :: post
    /\ Transaction.balance r == energy_sum ([] ++ [r])
    /\ Transaction.cycles r
       = Z.of_nat (length (filter is_buy ([] ++ [r]))).
Proof.
  destruct (run cfgA [dayA]) as [final|] eqn:E;
    [|vm_compute in E; discriminate E].
  destruct (transactions final) as [|r post] eqn:S.
  - exfalso. vm_compute in E. inversion E as [E']. rewrite <- E' in S.
    discriminate S.
  - exists final, r, post. split; [reflexivity|]. split; [exact S|].
    destruct (run_ledger_running_totals cfgA [dayA] final [] r post E S)
      as (Hb & Hc & _).
    split; assumption.
Defined.

(** * Runs without any trade *)

Lemma considered_nil (cfg : Config) (days : list (list PricePoint)) :
  (forall d, In d days -> candidates cfg d = []) ->
  considered cfg days = [].
Proof.
  unfold considered. induction days as [|d days IH]; intro H; simpl;
    [reflexivity|].
  unfold find_best_trade at 1. rewrite (H d (or_introl eq_refl)). simpl.
  apply IH. intros d' Hd'. apply H. now right.
Qed.

(** Whatever the configuration (a zero capacity included), when no day
    has two rows, the later one after the earlier one, whose unit profit
    reaches [profit_min], the run completes with an empty ledger and the
    initial state: this covers an empty series, days of a single row and
    days of constant price under a positive threshold. *)
Theorem run_without_candidates (cfg : Config)
  (days : list (list PricePoint)) :
  (forall d b s pb ps,
     In d days -> In (b, pb) d -> In (s, ps) d -> ts_gtb s b = true ->
     profit_kwh cfg pb ps < profit_min cfg) ->
  (forall d, In d days -> find_best_trade cfg d = [])
  /\ run cfg days = Some init_state.
Proof.
  intro H.
  assert (Hc : forall d, In d days -> candidates cfg d = []).
  { intros d Hd. destruct (candidates cfg d) as [|[[b s] p] l] eqn:E;
      [reflexivity|]. exfalso.
    assert (Hin : In (b, s, p) (candidates cfg d)) by (rewrite E; now left).
    apply candidates_in in Hin.
    destruct Hin as (pb & ps & Hb & Hs & Hgt & Hp & Hle).
    pose proof (H d b s pb ps Hd Hb Hs Hgt) as Hlt. rewrite <- Hp in Hlt.
    apply (Qlt_irrefl p). now apply Qlt_le_trans with (profit_min cfg). }
  split.
  - intros d Hd. unfold find_best_trade. now rewrite (Hc d Hd).
  - unfold run. rewrite run_days_flat, (considered_nil cfg days Hc).
    reflexivity.
Qed.

Lemma run_without_candidates_witness :
  (forall d b s pb ps,
     In d [day_flat] -> In (b, pb) d -> In (s, ps) d -> ts_gtb s b = true ->
     profit_kwh cfg_main pb ps < profit_min cfg_main)
  /\ run cfg_main [day_flat] = Some init_state.
Proof.
  assert (H : forall d b s pb ps,
            In d [day_flat] -> In (b, pb) d -> In (s, ps) d ->
            ts_gtb s b = true ->
            profit_kwh cfg_main pb ps < profit_min cfg_main).
  { intros d b s pb ps [<-|[]] Hb Hs _.
    assert (Epb : pb = 1 # 5).
    { simpl in Hb. destruct Hb as [E|[E|[E|[]]]]; now inversion E. }
    assert (Eps : ps = 1 # 5).
    { simpl in Hs. destruct Hs as [E|[E|[E|[]]]]; now inversion E. }
    subst pb ps. vm_compute. reflexivity. }
  split; [exact H|].
  destruct (run_without_candidates cfg_main [day_flat] H) as (_ & Hrun).
  exact Hrun.
Defined.

(** * Month profit on binary64 numbers *)

Example state64_bought_value :
  Binary64.buy_log state64_bought = [(at_hour 10, 5%float, 0.065144%float)]
  /\ Binary64.balance state64_bought = 5%float
  /\ Binary64.monthly_profit state64_bought = 0.5%float
  /\ Binary64.month_current state64_bought = month (at_hour 11).
Proof. repeat split; vm_compute; reflexivity. Qed.

(** On binary64 numbers the pair bought at 0.065144 and sold at 0.07752
    has unit profit 0.0, so the selector accepts it under a threshold of
    0; the sell happens in the month already tracked, its recorded
    profit is about -2.2e-16 and the monthly profit goes from 0.5 to
    0.4999999999999998. *)
Example sell64_lowers_month_profit :
  Binary64.candidate cfg64 (at_hour 10, 0.065144%float)
    (at_hour 11, 0.07752%float) = [(at_hour 10, at_hour 11, 0%float)]
  /\ Binary64.buy_log state64_bought
     = [(at_hour 10, 5%float, 0.065144%float)]
  /\ PrimFloat.ltb 0 (Binary64.balance state64_bought) = true
  /\ Binary64.month_current state64_bought = month (at_hour 11)
  /\ PrimFloat.leb 0
       (Binary64.profit_kwh cfg64 0.065144 0.07752) = true
  /\ PrimFloat.ltb
       (Binary64.monthly_profit
          (Binary64.sell_energy cfg64 state64_bought (at_hour 11) 0.07752))
       (Binary64.monthly_profit state64_bought) = true.
Proof. repeat split; vm_compute; reflexivity. Qed.

(** C8, counterexample: within a month, a sell whose accepted unit
    profit is not negative can decrease the monthly profit. *)
Lemma accepted_sell_can_lower_month_profit :
  ~ (forall cfg self timestamp sell_price lot rest,
       Binary64.buy_log self = lot :: rest ->
       PrimFloat.ltb 0 (Binary64.balance self) = true ->
       Binary64.month_current self = month timestamp ->
       PrimFloat.leb 0
         (Binary64.profit_kwh cfg (Binary64.lot_price lot) sell_price)
       = true ->
       PrimFloat.leb (Binary64.monthly_profit self)
         (Binary64.monthly_profit
            (Binary64.sell_energy cfg self timestamp sell_price)) = true).
Proof.
  intro H.
  destruct sell64_lowers_month_profit as (_ & Hlog & Hpos & Hmonth & Hunit & _).
  specialize (H cfg64 state64_bought (at_hour 11) 0.07752%float
                (at_hour 10, 5%float, 0.065144%float) [] Hlog Hpos Hmonth
                Hunit).
  vm_compute in H. discriminate H.
Qed.

Lemma loc_price_lookup_witness :
  NoDup (map fst dayX)
  /\ loc_price dayX (at_hour 9) = Some (30 # 1)
  /\ loc_price dayX (at_hour 11) = None.
Proof.
  assert (H : NoDup (map fst dayX)) by exact dayX_timestamps_distinct.
  split; [exact H|].
  destruct (loc_price_lookup dayX (at_hour 9) H) as (_ & Hsome).
  destruct (loc_price_lookup dayX (at_hour 11) H) as (Hnone & _).
  split.
  - apply Hsome. vm_compute. in_list.
  - apply Hnone. intro Hin. simpl in Hin.
    repeat (destruct Hin as [Hin|Hin]; [discriminate Hin|]). exact Hin.
Defined.

(** The month test compares month numbers: a sell in January 2024 that
    follows a sell in January 2023 without any sell in between keeps
    adding to the same monthly profit. *)
Example no_reset_one_year_later :
  month_current
    (sell_energy cfgA stateA_bought (mkTs 2023 1 1 11) (1 # 2)) = 1%Z
  /\ forall self,
       month_current self = 1%Z ->
       buy_log self = [(at_hour 10, 5, 1 # 10)] ->
       0 < balance self ->
       monthly_profit (sell_energy cfgA self (mkTs 2024 1 1 11) (1 # 2))
       = monthly_profit self
         + (pymin3 5 (balance self) 5 * ((1 # 2) + 0) * 1
            - pymin3 5 (balance self) 5 * ((1 # 10) + 0)).
Proof.
  split; [vm_compute; reflexivity|].
  intros self Hm Hlog Hpos.
  rewrite (sell_energy_head cfgA self (mkTs 2024 1 1 11) (1 # 2)
             (at_hour 10, 5, 1 # 10) [] Hlog Hpos).
  unfold sell_lot. simpl. rewrite Hm. reflexivity.
Qed.
